(** * AgentState: the per-session conversation ledger and its analytics

    A shallow embedding of the Durable Object class [AgentState] of
    [src/index.ts] (lines 8-84): the [Message] and [Analytics] records, the
    two storage slots the class reads and writes, and its five methods
    [getMessages], [addMessage], [clearMessages], [getAnalytics] and
    [updateAnalytics]; and of the request handler [fetch] (lines 86-281)
    that routes requests to these methods.

    Conventions of the embedding.
    - A JavaScript [number] that holds a counter or a [Date.now()] reading is
      an integer, modelled in [Z].  [averageResponseTime] is the only field
      on which the code divides; it is modelled as an exact rational in [Q]
      and compared with [==].  The source computes it in IEEE binary64,
      which rounds each operation whose exact result is not a binary64
      number: a statement that gives the value of the average as a mean
      therefore carries the premise [rounding_free], under which no operation
      of lines 74-77 rounds and the stored double is the rational computed
      here.  The divisor of line 77 is the incremented [assistantMessages],
      which is at least 1 in every state reached from an empty or cleared
      session, so the convention [x / 0 == 0] of [Q] is never exercised
      there.
    - An optional field ([timestamp?], [firstMessageTime?],
      [lastMessageTime?]) is an [option Z]; JavaScript truthiness of such a
      field ([x && ...], [!x]) is [truthy]: defined and different from 0.
    - [this.ctx.storage] is only ever accessed under the keys ["messages"]
      and ["analytics"]; it is a record with one optional slot for each.
    - The methods are [async] and run one [await] after the other; they are
      written in a state monad over [Storage].  [Date.now()] is an input of
      [addMessage]. *)

From Stdlib Require Import ZArith QArith Qcanon List Bool Lia String Sorted.
Import ListNotations.

Local Open Scope Z_scope.

(** ** Data model (index.ts, lines 8-21) *)

Inductive Role : Type := user | assistant | system.

Definition Role_eqb (a b : Role) : bool :=
  match a, b with
  | user, user | assistant, assistant | system, system => true
  | _, _ => false
  end.

Record Message : Type := mkMessage {
  role : Role;
  content : string;
  timestamp : option Z
}.

Record Analytics : Type := mkAnalytics {
  totalMessages : Z;
  userMessages : Z;
  assistantMessages : Z;
  averageResponseTime : Q;
  firstMessageTime : option Z;
  lastMessageTime : option Z
}.

(** The object literal of lines 39-44 and 48-53: four zero counters, the two
    optional fields absent. *)
Definition zeroAnalytics : Analytics :=
  mkAnalytics 0 0 0 (0 # 1) None None.

(** The two records kept in [this.ctx.storage]; [None] is a key that was
    never written. *)
Record Storage : Type := mkStorage {
  stored_messages : option (list Message);
  stored_analytics : option Analytics
}.

(** The storage of a session that was never accessed. *)
Definition emptyStorage : Storage := mkStorage None None.

(** JavaScript truthiness of an optional number. *)
Definition truthy (x : option Z) : bool :=
  match x with
  | Some t => negb (t =? 0)
  | None => false
  end.

(** ** The storage monad *)

Module StorageMonad.

Definition M (A : Type) : Type := Storage -> A * Storage.

Definition ret {A : Type} (a : A) : M A := fun st => (a, st).

Definition bind {A B : Type} (c : M A) (k : A -> M B) : M B :=
  fun st => let (a, st') := c st in k a st'.

(** [storage.get("messages")] and [storage.get("analytics")]. *)
Definition storage_get_messages : M (option (list Message)) :=
  fun st => (stored_messages st, st).

Definition storage_get_analytics : M (option Analytics) :=
  fun st => (stored_analytics st, st).

(** [storage.put("messages", v)] and [storage.put("analytics", v)]. *)
Definition storage_put_messages (v : list Message) : M unit :=
  fun st => (tt, mkStorage (Some v) (stored_analytics st)).

Definition storage_put_analytics (v : Analytics) : M unit :=
  fun st => (tt, mkStorage (stored_messages st) (Some v)).

(** The value a method resolves to, and the storage it leaves. *)
Definition eval {A : Type} (c : M A) (st : Storage) : A := fst (c st).
Definition exec {A : Type} (c : M A) (st : Storage) : Storage := snd (c st).

End StorageMonad.
Import StorageMonad.

Declare Scope storage_scope.
Delimit Scope storage_scope with storage.
Notation "x <- c ;; k" := (bind c (fun x => k))
  (at level 61, c at next level, right associativity) : storage_scope.
Notation "c ;; k" := (bind c (fun _ => k))
  (at level 61, right associativity) : storage_scope.
Local Open Scope storage_scope.

(** ** The methods of [AgentState] (index.ts, lines 25-83) *)

(** Lines 25-27.  An array is truthy even when empty, so [|| []] applies
    only to an absent key. *)
Definition getMessages : M (list Message) :=
  stored <- storage_get_messages ;;
  ret (match stored with
       | Some messages => messages
       | None => []
       end).

(** Lines 47-54. *)
Definition getAnalytics : M Analytics :=
  stored <- storage_get_analytics ;;
  ret (match stored with
       | Some analytics => analytics
       | None => zeroAnalytics
       end).

(** Lines 37-45. *)
Definition clearMessages : M unit :=
  storage_put_messages [] ;;
  storage_put_analytics zeroAnalytics.

(** Field updates of the local [analytics] object of [updateAnalytics]. *)
Definition set_totalMessages (a : Analytics) (v : Z) : Analytics :=
  mkAnalytics v (userMessages a) (assistantMessages a)
              (averageResponseTime a) (firstMessageTime a) (lastMessageTime a).

Definition set_userMessages (a : Analytics) (v : Z) : Analytics :=
  mkAnalytics (totalMessages a) v (assistantMessages a)
              (averageResponseTime a) (firstMessageTime a) (lastMessageTime a).

Definition set_assistantMessages (a : Analytics) (v : Z) : Analytics :=
  mkAnalytics (totalMessages a) (userMessages a) v
              (averageResponseTime a) (firstMessageTime a) (lastMessageTime a).

Definition set_averageResponseTime (a : Analytics) (v : Q) : Analytics :=
  mkAnalytics (totalMessages a) (userMessages a) (assistantMessages a)
              v (firstMessageTime a) (lastMessageTime a).

Definition set_firstMessageTime (a : Analytics) (v : option Z) : Analytics :=
  mkAnalytics (totalMessages a) (userMessages a) (assistantMessages a)
              (averageResponseTime a) v (lastMessageTime a).

Definition set_lastMessageTime (a : Analytics) (v : option Z) : Analytics :=
  mkAnalytics (totalMessages a) (userMessages a) (assistantMessages a)
              (averageResponseTime a) (firstMessageTime a) v.

(** [m => m.role === "user"], the predicate of line 72. *)
Definition is_user (m : Message) : bool := Role_eqb (role m) user.

(** Lines 73-78: the running mean, taken when both timestamps are truthy.
    [analytics] already carries the incremented [assistantMessages].  Two
    truthy timestamps are both present, so the fall-through of the inner
    [match] is never taken. *)
Definition recordResponseTime (analytics : Analytics)
    (lastUserMessage : option Message) (message : Message) : Analytics :=
  match lastUserMessage with
  | Some lastUser =>
      if truthy (timestamp lastUser) && truthy (timestamp message) then
        match timestamp message, timestamp lastUser with
        | Some t, Some u =>
            let responseTime := t - u in
            set_averageResponseTime analytics
              ((averageResponseTime analytics
                  * inject_Z (assistantMessages analytics - 1)
                  + inject_Z responseTime)
                 / inject_Z (assistantMessages analytics))%Q
        | _, _ => analytics
        end
      else analytics
  | None => analytics
  end.

(** Lines 56-83. *)
Definition updateAnalytics (message : Message) : M unit :=
  analytics <- getAnalytics ;;
  let analytics := set_totalMessages analytics (totalMessages analytics + 1) in
  analytics <-
    match role message with
    | user =>
        let analytics :=
          set_userMessages analytics (userMessages analytics + 1) in
        let analytics := set_lastMessageTime analytics (timestamp message) in
        ret (if negb (truthy (firstMessageTime analytics))
             then set_firstMessageTime analytics (timestamp message)
             else analytics)
    | assistant =>
        let analytics :=
          set_assistantMessages analytics (assistantMessages analytics + 1) in
        messages <- getMessages ;;
        ret (if (2 <=? Z.of_nat (List.length messages))
             then recordResponseTime analytics
                    (List.find is_user (List.rev messages)) message
             else analytics)
    | system => ret analytics
    end ;;
  storage_put_analytics analytics.

(** Lines 29-35.  [now] is the value of [Date.now()] at line 31; the
    assignment replaces whatever [timestamp] the caller's object carried. *)
Definition addMessage (now : Z) (message : Message) : M unit :=
  messages <- getMessages ;;
  let message := mkMessage (role message) (content message) (Some now) in
  let messages := messages ++ [message] in
  storage_put_messages messages ;;
  updateAnalytics message.

(** ** Sessions: sequences of requests against one Durable Object *)

(** A state-changing request reaching the object: an [addMessage] call
    together with the clock reading it takes, or a [clearMessages] call. *)
Inductive Request : Type :=
  | Append (now : Z) (message : Message)
  | Clear.

Definition step (st : Storage) (rq : Request) : Storage :=
  match rq with
  | Append now message => exec (addMessage now message) st
  | Clear => exec clearMessages st
  end.

(** The requests are served one after the other. *)
Definition run (rqs : list Request) (st : Storage) : Storage :=
  fold_left step rqs st.

(** What a caller observes of a session. *)
Definition messagesOf (st : Storage) : list Message := eval getMessages st.
Definition analyticsOf (st : Storage) : Analytics := eval getAnalytics st.

(** The message as [addMessage] stores it. *)
Definition stamp (now : Z) (message : Message) : Message :=
  mkMessage (role message) (content message) (Some now).

(** The appends that follow the last [Clear], oldest first. *)
Definition since_clear (rqs : list Request) : list (Z * Message) :=
  fold_left
    (fun acc rq =>
       match rq with
       | Append now message => acc ++ [(now, message)]
       | Clear => []
       end)
    rqs [].

(** The clock readings taken by a request sequence, in order. *)
Fixpoint clock_readings (rqs : list Request) : list Z :=
  match rqs with
  | [] => []
  | Append now _ :: rest => now :: clock_readings rest
  | Clear :: rest => clock_readings rest
  end.

(** Every [Date.now()] reading lies after the epoch. *)
Definition clock_positive (rqs : list Request) : bool :=
  forallb (fun now => 0 <? now) (clock_readings rqs).

(** ** Reference notions, read off the append sequence

    These do not look at the storage: they are what the specification says
    the ledger and the analytics stand for, computed from the appends made
    since the last clear. *)

Definition has_role (r : Role) (a : Z * Message) : bool :=
  Role_eqb (role (snd a)) r.

Definition count_role (r : Role) (l : list (Z * Message)) : Z :=
  Z.of_nat (List.length (filter (has_role r) l)).

(** Clock reading of the first, and of the latest, user append. *)
Definition first_user_time (l : list (Z * Message)) : option Z :=
  option_map fst (find (has_role user) l).

Definition last_user_time (l : list (Z * Message)) : option Z :=
  option_map fst (find (has_role user) (rev l)).

(** The response-time samples, in the words of the specification: the
    recorded (assistant timestamp minus preceding user timestamp) deltas.
    Every assistant append made while a user message precedes it contributes
    its clock reading minus that of the latest preceding user append; an
    assistant append that no user message precedes contributes nothing.
    [pending] is the reading of the latest user append seen so far. *)
Fixpoint recorded_deltas_from (pending : option Z) (l : list (Z * Message))
  : list Z :=
  match l with
  | [] => []
  | (t, m) :: rest =>
      match role m with
      | user => recorded_deltas_from (Some t) rest
      | assistant =>
          match pending with
          | Some u => (t - u) :: recorded_deltas_from pending rest
          | None => recorded_deltas_from pending rest
          end
      | system => recorded_deltas_from pending rest
      end
  end.

Definition recorded_deltas (l : list (Z * Message)) : list Z :=
  recorded_deltas_from None l.

Definition sumZ (l : list Z) : Z := fold_right Z.add 0 l.


(** Every assistant append is made after some user append. *)
Fixpoint answers_only_from (seen_user : bool) (l : list (Z * Message)) : bool :=
  match l with
  | [] => true
  | (_, m) :: rest =>
      match role m with
      | user => answers_only_from true rest
      | assistant => seen_user && answers_only_from seen_user rest
      | system => answers_only_from seen_user rest
      end
  end.

Definition answers_only (l : list (Z * Message)) : bool :=
  answers_only_from false l.

(** ** The stored state, as it follows the append sequence *)

(** The user append that is pending after [l], when [pending] was before. *)
Definition pending_after (pending : option Z) (l : list (Z * Message))
  : option Z :=
  match last_user_time l with
  | Some t => Some t
  | None => pending
  end.

Definition stamped (x : Z * Message) : Message := stamp (fst x) (snd x).

(** The ledger and the three counters, for any clock. *)
Definition counts_track (l : list (Z * Message)) (st : Storage) : Prop :=
  messagesOf st = map stamped l /\
  totalMessages (analyticsOf st) = Z.of_nat (List.length l) /\
  userMessages (analyticsOf st) = count_role user l /\
  assistantMessages (analyticsOf st) = count_role assistant l.

(** The running mean and the two instants, for a clock after the epoch. *)
Definition times_track (l : list (Z * Message)) (st : Storage) : Prop :=
  (averageResponseTime (analyticsOf st)
     * inject_Z (assistantMessages (analyticsOf st))
   == inject_Z (sumZ (recorded_deltas l)))%Q /\
  (recorded_deltas l = [] -> averageResponseTime (analyticsOf st) = 0 # 1) /\
  firstMessageTime (analyticsOf st) = first_user_time l /\
  lastMessageTime (analyticsOf st) = last_user_time l.

Definition after_epoch (l : list (Z * Message)) : Prop :=
  Forall (fun x => 0 < fst x) l.

(** ** Where binary64 does not round

    An IEEE operation returns its exact result whenever that result is a
    binary64 number.  [binary64_number] is a sufficient test: in lowest
    terms, a numerator below [2^53] in magnitude over a power of two not
    above [2^1074]. *)

Fixpoint power_of_two (p : positive) : bool :=
  match p with
  | xH => true
  | xO p' => power_of_two p'
  | xI _ => false
  end.

Definition binary64_number (q : Q) : bool :=
  let r := Qred q in
  (Z.abs (Qnum r) <? 2 ^ 53)
  && power_of_two (Qden r)
  && (Z.log2 (Zpos (Qden r)) <=? 1074).

(** The exact results of the four operations of lines 74-77 when an
    assistant message stamped [t] answers a user message stamped [u]:
    the subtraction, the product, the sum and the quotient.  [analytics]
    carries the incremented [assistantMessages], as in
    [recordResponseTime]. *)
Definition responseTimeSteps (analytics : Analytics) (t u : Z) : list Q :=
  let responseTime := inject_Z (t - u) in
  let product :=
    (averageResponseTime analytics
     * inject_Z (assistantMessages analytics - 1))%Q in
  [responseTime;
   product;
   (product + responseTime)%Q;
   ((product + responseTime) / inject_Z (assistantMessages analytics))%Q].

(** The samples [ds], taken after [n] samples of sum [sum], make no
    operation round: every sample, every running sum and every count is an
    integer below [2^53] in magnitude, and every running mean is a binary64
    number. *)
Fixpoint rounding_free_from (n sum : Z) (ds : list Z) : bool :=
  match ds with
  | [] => true
  | d :: rest =>
      (Z.abs d <? 2 ^ 53)
      && (n + 1 <? 2 ^ 53)
      && (Z.abs sum <? 2 ^ 53)
      && (Z.abs (sum + d) <? 2 ^ 53)
      && binary64_number (inject_Z (sum + d) / inject_Z (n + 1))
      && rounding_free_from (n + 1) (sum + d) rest
  end.

Definition rounding_free (ds : list Z) : bool := rounding_free_from 0 0 ds.

(** ** The properties under study *)

(** Timestamps of the stored messages, in ledger order. *)
Definition stored_timestamps (st : Storage) : list (option Z) :=
  map timestamp (messagesOf st).

(** [totalMessages == userMessages + assistantMessages] in the session
    reached by [rqs]. *)
Definition total_is_user_plus_assistant (rqs : list Request) : Prop :=
  let a := analyticsOf (run rqs emptyStorage) in
  totalMessages a = userMessages a + assistantMessages a.


(** Reduce the projections of a record that was just built. *)
Ltac fields :=
  cbv zeta;
  cbn [totalMessages userMessages assistantMessages averageResponseTime
       firstMessageTime lastMessageTime
       set_totalMessages set_userMessages set_assistantMessages
       set_averageResponseTime set_firstMessageTime set_lastMessageTime].

(** ** The request handler (index.ts, lines 86-281)

    [fetch] routes a request on its method and path, reaches the Durable
    Object named by the [sessionId] of the body and calls its methods.  The
    parts of the platform it relies on are inputs of the embedding:
    - [json] is what [await request.json()] gives: the parsed body, typed as
      the handler's type assertion says, or the error it throws;
    - [decode_image] is lines 130-135 ([split], [atob], [charCodeAt]) and
      [run_vision], [run_text] are the two [env.AI.run] calls: each returns
      or throws;
    - [env.AGENT_STATE] maps a name to the storage of the object of that
      name, [idFromName] followed by [get].
    A response body is kept as the value given to [JSON.stringify], not as
    its text.  A method call on a stub returns (the platform's own failures
    are not modelled), and a request runs to its end before the next one
    starts. *)

Inductive Outcome (T : Type) : Type :=
  | Returns (value : T)
  | Throws (error_message : string).
Arguments Returns {T} value.
Arguments Throws {T} error_message.

Record Payload : Type := mkPayload {
  p_message : string;
  p_sessionId : string;
  p_image : option string
}.

Record HttpRequest : Type := mkHttpRequest {
  method : string;
  pathname : string;
  json : Outcome Payload
}.

Inductive ResponseBody : Type :=
  | BodyNull
  | BodyHtml
  | BodyText (text : string)
  | JsonResponse (response : string)
  | JsonError (error : string)
  | JsonSuccess
  | JsonAnalytics (analytics : Analytics)
  | JsonMessages (messages : list Message).

Record Response : Type := mkResponse {
  status : Z;
  headers : list (string * string);
  body : ResponseBody
}.

Record Env : Type := mkEnv {
  decode_image : string -> Outcome (list Z);
  run_vision : list Z -> string -> Outcome (option string);
  run_text : list Message -> Outcome string
}.

Definition Namespace : Type := string -> Storage.

(** A namespace none of whose objects was ever reached. *)
Definition freshNamespace : Namespace := fun _ => emptyStorage.

Definition ns_put (ns : Namespace) (sessionId : string) (st : Storage)
  : Namespace :=
  fun name => if String.eqb name sessionId then st else ns name.

Module HandlerMonad.

(** A step of the [try] block: it returns or throws, and leaves the
    namespace as the calls made so far have left it. *)
Definition H (T : Type) : Type := Namespace -> Outcome T * Namespace.

Definition hret {T : Type} (a : T) : H T := fun ns => (Returns a, ns).

Definition hbind {T V : Type} (c : H T) (k : T -> H V) : H V :=
  fun ns =>
    match c ns with
    | (Returns a, ns') => k a ns'
    | (Throws e, ns') => (Throws e, ns')
    end.

(** [await] of a platform call. *)
Definition await {T : Type} (o : Outcome T) : H T := fun ns => (o, ns).

(** A method call on the stub of the object named [sessionId]. *)
Definition stub_call {T : Type} (sessionId : string) (c : M T) : H T :=
  fun ns =>
    let (a, st) := c (ns sessionId) in
    (Returns a, ns_put ns sessionId st).

(** [try { ... } catch (error) { ... }]. *)
Definition try_catch (c : H Response) (handler : string -> Response)
  : Namespace -> Response * Namespace :=
  fun ns =>
    match c ns with
    | (Returns r, ns') => (r, ns')
    | (Throws e, ns') => (handler e, ns')
    end.

End HandlerMonad.
Import HandlerMonad.

Declare Scope handler_scope.
Delimit Scope handler_scope with handler.
Notation "x <- c ;; k" := (hbind c (fun x => k))
  (at level 61, c at next level, right associativity) : handler_scope.
Notation "c ;; k" := (hbind c (fun _ => k))
  (at level 61, right associativity) : handler_scope.

(** Lines 91-95. *)
Definition corsHeaders : list (string * string) :=
  [("Access-Control-Allow-Origin", "*");
   ("Access-Control-Allow-Methods", "GET, POST, OPTIONS");
   ("Access-Control-Allow-Headers", "Content-Type")]%string.

(** [{ ...corsHeaders, "Content-Type": "application/json" }]. *)
Definition jsonHeaders : list (string * string) :=
  corsHeaders ++ [("Content-Type"%string, "application/json"%string)].

(** The [catch] blocks of the four endpoints. *)
Definition errorResponse (error : string) : Response :=
  mkResponse 500 jsonHeaders (JsonError error).

(** Truthiness of the optional [image] string (line 128). *)
Definition truthy_string (x : option string) : bool :=
  match x with
  | Some s => negb (String.eqb s "")
  | None => false
  end.

(** Line 163-165. *)
Definition systemPrompt : Message :=
  mkMessage system "You are a helpful chatbot." None.

(** [visionResponse.description || "I couldn't analyze the image."],
    line 144. *)
Definition descriptionOrDefault (description : option string) : string :=
  if truthy_string description then
    match description with
    | Some s => s
    | None => "I couldn't analyze the image."
    end
  else "I couldn't analyze the image.".

(** Lines 110-188, the [try] block of the chat endpoint.  [nowUser] and
    [nowAssistant] are the clock readings of its two [addMessage] calls. *)
Definition chatEndpoint (env : Env) (nowUser nowAssistant : Z)
    (request : HttpRequest) : H Response :=
  (payload <- await (json request) ;;
   let message := p_message payload in
   let sessionId := p_sessionId payload in
   let image := p_image payload in
   messages <- stub_call sessionId getMessages ;;
   stub_call sessionId (addMessage nowUser (mkMessage user message None)) ;;
   if truthy_string image then
     bytes <- await (decode_image env
                       (match image with Some s => s | None => "" end)) ;;
     description <- await (run_vision env bytes message) ;;
     let assistantMessage := descriptionOrDefault description in
     stub_call sessionId
       (addMessage nowAssistant (mkMessage assistant assistantMessage None)) ;;
     hret (mkResponse 200 jsonHeaders (JsonResponse assistantMessage))
   else
     let aiMessages :=
       systemPrompt :: messages ++ [mkMessage user message None] in
     assistantMessage <- await (run_text env aiMessages) ;;
     stub_call sessionId
       (addMessage nowAssistant (mkMessage assistant assistantMessage None)) ;;
     hret (mkResponse 200 jsonHeaders (JsonResponse assistantMessage))
  )%handler.

(** Lines 202-213. *)
Definition clearEndpoint (request : HttpRequest) : H Response :=
  (payload <- await (json request) ;;
   stub_call (p_sessionId payload) clearMessages ;;
   hret (mkResponse 200 jsonHeaders JsonSuccess))%handler.

(** Lines 227-238. *)
Definition analyticsEndpoint (request : HttpRequest) : H Response :=
  (payload <- await (json request) ;;
   analytics <- stub_call (p_sessionId payload) getAnalytics ;;
   hret (mkResponse 200 jsonHeaders (JsonAnalytics analytics)))%handler.

(** Lines 252-267. *)
Definition exportEndpoint (request : HttpRequest) : H Response :=
  (payload <- await (json request) ;;
   messages <- stub_call (p_sessionId payload) getMessages ;;
   hret (mkResponse 200
           (jsonHeaders ++
            [("Content-Disposition"%string,
              "attachment; filename=conversation.json"%string)])
           (JsonMessages messages)))%handler.

(** Lines 87-280.  A [Response] built without a [status] has status 200. *)
Definition fetch (env : Env) (nowUser nowAssistant : Z)
    (request : HttpRequest) (ns : Namespace) : Response * Namespace :=
  if String.eqb (method request) "OPTIONS" then
    (mkResponse 200 corsHeaders BodyNull, ns)
  else if String.eqb (pathname request) "/"
          && String.eqb (method request) "GET" then
    (mkResponse 200 [("Content-Type", "text/html")]%string BodyHtml, ns)
  else if String.eqb (pathname request) "/api/chat"
          && String.eqb (method request) "POST" then
    try_catch (chatEndpoint env nowUser nowAssistant request) errorResponse ns
  else if String.eqb (pathname request) "/api/clear"
          && String.eqb (method request) "POST" then
    try_catch (clearEndpoint request) errorResponse ns
  else if String.eqb (pathname request) "/api/analytics"
          && String.eqb (method request) "POST" then
    try_catch (analyticsEndpoint request) errorResponse ns
  else if String.eqb (pathname request) "/api/export"
          && String.eqb (method request) "POST" then
    try_catch (exportEndpoint request) errorResponse ns
  else
    (mkResponse 404 [] (BodyText "Not found"), ns).

(** What the chat endpoint obtains between its two appends, lines 128-175:
    the reply to store, or the error thrown on the way.  [messages] is the
    history read at line 122. *)
Definition inference (env : Env) (messages : list Message)
    (payload : Payload) : Outcome string :=
  if truthy_string (p_image payload) then
    match decode_image env
            (match p_image payload with Some s => s | None => "" end) with
    | Throws e => Throws e
    | Returns bytes =>
        match run_vision env bytes (p_message payload) with
        | Throws e => Throws e
        | Returns description => Returns (descriptionOrDefault description)
        end
    end
  else
    run_text env
      (systemPrompt :: messages ++ [mkMessage user (p_message payload) None]).

(** The paths of the four API endpoints. *)
Definition apiPaths : list string :=
  ["/api/chat"; "/api/clear"; "/api/analytics"; "/api/export"]%string.

(** ** Traffic: requests handled one after the other *)

(** A request together with what the platform answers while it is
    handled. *)
Record Event : Type := mkEvent {
  ev_env : Env;
  ev_nowUser : Z;
  ev_nowAssistant : Z;
  ev_request : HttpRequest
}.

Definition handle (ns : Namespace) (ev : Event) : Response * Namespace :=
  fetch (ev_env ev) (ev_nowUser ev) (ev_nowAssistant ev) (ev_request ev) ns.

Definition serve (evs : list Event) (ns : Namespace) : Namespace :=
  fold_left (fun ns ev => snd (handle ns ev)) evs ns.

(** ** What the stored ledger says, recomputed

    The same quantities as the analytics, read from the stored messages
    alone. *)

Definition has_stored_role (r : Role) (m : Message) : bool :=
  Role_eqb (role m) r.

Definition count_stored (r : Role) (ms : list Message) : Z :=
  Z.of_nat (List.length (filter (has_stored_role r) ms)).



(** The roles of a sequence of appends. *)
Definition roles_of (l : list (Z * Message)) : list Role :=
  map (fun x => role (snd x)) l.

(** A list of roles is a dialogue when it holds no system message and every
    assistant message comes right after a user message.  [after_user] tells
    whether the message before the list is a user message. *)
Fixpoint dialogue_from (after_user : bool) (rs : list Role) : bool :=
  match rs with
  | [] => true
  | user :: rest => dialogue_from true rest
  | assistant :: rest => after_user && dialogue_from false rest
  | system :: rest => false
  end.

Definition dialogue (rs : list Role) : bool := dialogue_from false rs.

(** Both clock readings of every event lie after the epoch. *)
Definition events_clock_positive (evs : list Event) : bool :=
  forallb (fun ev => (0 <? ev_nowUser ev) && (0 <? ev_nowAssistant ev)) evs.

(** The state-changing calls that handling one event can make on one
    object: none, a clear, the user's message alone, or the user's message
    and the reply. *)
Inductive handler_calls (ev : Event) : list Request -> Prop :=
  | calls_none : handler_calls ev []
  | calls_clear : handler_calls ev [Clear]
  | calls_question (message : string) :
      handler_calls ev
        [Append (ev_nowUser ev) (mkMessage user message None)]
  | calls_exchange (message reply : string) :
      handler_calls ev
        [Append (ev_nowUser ev) (mkMessage user message None);
         Append (ev_nowAssistant ev) (mkMessage assistant reply None)].

(** * Proofs *)

(** ** One request at a time: what a caller observes afterwards *)

Lemma run_snoc (rqs : list Request) (rq : Request) (st : Storage) :
  run (rqs ++ [rq]) st = step (run rqs st) rq.
Proof. unfold run. now rewrite fold_left_app. Qed.

Lemma messagesOf_clear (st : Storage) :
  messagesOf (exec clearMessages st) = [].
Proof. reflexivity. Qed.

Lemma analyticsOf_clear (st : Storage) :
  analyticsOf (exec clearMessages st) = zeroAnalytics.
Proof. reflexivity. Qed.

Lemma messagesOf_addMessage (st : Storage) (now : Z) (m : Message) :
  messagesOf (exec (addMessage now m) st) = messagesOf st ++ [stamp now m].
Proof.
  destruct st as [ms an], m as [r c t].
  destruct r; reflexivity.
Qed.

Lemma analyticsOf_addMessage_user (st : Storage) (now : Z) (m : Message) :
  role m = user ->
  analyticsOf (exec (addMessage now m) st) =
  let a := analyticsOf st in
  mkAnalytics (totalMessages a + 1) (userMessages a + 1)
    (assistantMessages a) (averageResponseTime a)
    (if truthy (firstMessageTime a) then firstMessageTime a else Some now)
    (Some now).
Proof.
  destruct st as [ms an], m as [r c t]; simpl; intros ->.
  unfold analyticsOf, addMessage, updateAnalytics, exec, eval, bind; simpl.
  now destruct (truthy _).
Qed.

Lemma analyticsOf_addMessage_system (st : Storage) (now : Z) (m : Message) :
  role m = system ->
  analyticsOf (exec (addMessage now m) st) =
  set_totalMessages (analyticsOf st) (totalMessages (analyticsOf st) + 1).
Proof.
  destruct st as [ms an], m as [r c t]; simpl; intros ->.
  reflexivity.
Qed.

Lemma find_user_rev_snoc (ms : list Message) (m : Message) :
  is_user m = false ->
  find is_user (rev (ms ++ [m])) = find is_user (rev ms).
Proof. intros H. rewrite rev_app_distr. simpl. now rewrite H. Qed.

Lemma analyticsOf_addMessage_assistant (st : Storage) (now : Z) (m : Message) :
  role m = assistant ->
  analyticsOf (exec (addMessage now m) st) =
  let a := analyticsOf st in
  recordResponseTime
    (mkAnalytics (totalMessages a + 1) (userMessages a)
       (assistantMessages a + 1) (averageResponseTime a)
       (firstMessageTime a) (lastMessageTime a))
    (find is_user (rev (messagesOf st))) (stamp now m).
Proof.
  destruct st as [ms an], m as [r c t]; simpl; intros ->.
  unfold analyticsOf, messagesOf, addMessage, updateAnalytics, exec, eval, bind.
  simpl.
  set (old := match ms with Some l => l | None => [] end).
  rewrite find_user_rev_snoc by reflexivity.
  destruct (2 <=? Z.of_nat (List.length (old ++ [_]))) eqn:E; [reflexivity|].
  assert (old = []) as ->.
  { destruct old; [reflexivity|].
    rewrite length_app in E. simpl in E. apply Z.leb_gt in E. lia. }
  reflexivity.
Qed.

(** ** The reference notions, one append further *)

Lemma find_append {T : Type} (f : T -> bool) (l1 l2 : list T) :
  find f (l1 ++ l2) =
  match find f l1 with
  | Some a => Some a
  | None => find f l2
  end.
Proof.
  induction l1 as [|a l1 IH]; simpl; [reflexivity|].
  now destruct (f a).
Qed.

Section AppendSequences.

Implicit Types (l : list (Z * Message)) (x : Z * Message).

Lemma since_clear_snoc_append (rqs : list Request) (now : Z) (m : Message) :
  since_clear (rqs ++ [Append now m]) = since_clear rqs ++ [(now, m)].
Proof. unfold since_clear. now rewrite fold_left_app. Qed.

Lemma since_clear_snoc_clear (rqs : list Request) :
  since_clear (rqs ++ [Clear]) = [].
Proof. unfold since_clear. now rewrite fold_left_app. Qed.

Lemma clock_readings_app (r1 r2 : list Request) :
  clock_readings (r1 ++ r2) = clock_readings r1 ++ clock_readings r2.
Proof.
  induction r1 as [|[now m|] r1 IH]; simpl; [reflexivity| |assumption].
  now rewrite IH.
Qed.

Lemma count_role_snoc (r : Role) l x :
  count_role r (l ++ [x]) =
  count_role r l + (if has_role r x then 1 else 0).
Proof.
  unfold count_role. rewrite filter_app, length_app. simpl.
  destruct (has_role r x); simpl; lia.
Qed.

Lemma count_role_cons (r : Role) x l :
  count_role r (x :: l) =
  (if has_role r x then 1 else 0) + count_role r l.
Proof.
  unfold count_role. simpl.
  destruct (has_role r x); simpl List.length; lia.
Qed.

Lemma count_role_nonneg (r : Role) l : 0 <= count_role r l.
Proof. unfold count_role. lia. Qed.

Lemma count_role_total l :
  Z.of_nat (List.length l) =
  count_role user l + count_role assistant l + count_role system l.
Proof.
  induction l as [|[t [r c ts]] l IH]; [reflexivity|].
  unfold count_role in *.
  destruct r; cbn [filter has_role snd role Role_eqb List.length]; lia.
Qed.

Lemma first_user_time_snoc l x :
  first_user_time (l ++ [x]) =
  match first_user_time l with
  | Some t => Some t
  | None => if has_role user x then Some (fst x) else None
  end.
Proof.
  unfold first_user_time.
  induction l as [|y l IH]; simpl.
  - now destruct (has_role user x).
  - destruct (has_role user y); [reflexivity|exact IH].
Qed.

Lemma last_user_time_snoc l x :
  last_user_time (l ++ [x]) =
  if has_role user x then Some (fst x) else last_user_time l.
Proof.
  unfold last_user_time. rewrite rev_app_distr. simpl.
  now destruct (has_role user x).
Qed.

Lemma pending_after_cons (pending : option Z) x l :
  pending_after pending (x :: l) =
  pending_after (if has_role user x then Some (fst x) else pending) l.
Proof.
  unfold pending_after, last_user_time. simpl.
  rewrite find_append.
  destruct (find (has_role user) (rev l)); [reflexivity|].
  simpl. now destruct (has_role user x).
Qed.

Lemma recorded_deltas_from_snoc (pending : option Z) l x :
  recorded_deltas_from pending (l ++ [x]) =
  recorded_deltas_from pending l ++
  recorded_deltas_from (pending_after pending l) [x].
Proof.
  revert pending.
  induction l as [|[t [r c ts]] l IH]; intros pending.
  - reflexivity.
  - rewrite pending_after_cons.
    destruct r; simpl; unfold has_role; simpl.
    + apply IH.
    + destruct pending; simpl; now rewrite IH.
    + apply IH.
Qed.

Lemma recorded_deltas_snoc l x :
  recorded_deltas (l ++ [x]) =
  recorded_deltas l ++
  match role (snd x), last_user_time l with
  | assistant, Some u => [fst x - u]
  | _, _ => []
  end.
Proof.
  unfold recorded_deltas. rewrite recorded_deltas_from_snoc.
  f_equal. unfold pending_after.
  destruct x as [t [r c ts]]; simpl.
  destruct r, (last_user_time l); reflexivity.
Qed.

Lemma no_user_no_deltas l :
  last_user_time l = None -> recorded_deltas l = [].
Proof.
  induction l as [|x l IH] using rev_ind; [reflexivity|].
  rewrite last_user_time_snoc, recorded_deltas_snoc.
  destruct x as [t [r c ts]]; unfold has_role; simpl.
  destruct r; simpl; try discriminate; intros H; rewrite (IH H);
    try rewrite H; reflexivity.
Qed.

Lemma sumZ_app (l1 l2 : list Z) : sumZ (l1 ++ l2) = sumZ l1 + sumZ l2.
Proof. induction l1 as [|a l1 IH]; simpl; lia. Qed.

(** When every assistant append answers a user append, it yields one
    sample. *)
Lemma deltas_one_per_answer (seen : bool) (pending : option Z) l :
  (seen = true -> pending <> None) ->
  answers_only_from seen l = true ->
  Z.of_nat (List.length (recorded_deltas_from pending l)) =
  count_role assistant l.
Proof.
  revert seen pending.
  induction l as [|[t [r c ts]] l IH]; intros seen pending Hp H.
  - reflexivity.
  - rewrite count_role_cons. simpl in H.
    destruct r; cbn [recorded_deltas_from role has_role snd Role_eqb].
    + rewrite (IH true (Some t)); [lia|discriminate|assumption].
    + apply andb_prop in H as [-> H].
      destruct pending as [u|]; [|now elim Hp].
      cbn [List.length]. rewrite Nat2Z.inj_succ.
      rewrite (IH true (Some u)); [lia|discriminate|assumption].
    + rewrite (IH seen pending); [lia|assumption|assumption].
Qed.

End AppendSequences.

Lemma find_map_pre {T V : Type} (f : V -> bool) (g : T -> V) (l : list T) :
  find f (map g l) = option_map g (find (fun x => f (g x)) l).
Proof.
  induction l as [|a l IH]; simpl; [reflexivity|].
  now destruct (f (g a)).
Qed.

Lemma last_user_stamped (l : list (Z * Message)) :
  find is_user (rev (map stamped l)) =
  option_map stamped (find (has_role user) (rev l)).
Proof. rewrite <- map_rev, find_map_pre. reflexivity. Qed.

Lemma role_cases (r : Role) (x : Z * Message) :
  role (snd x) = r -> forall r', has_role r' x = Role_eqb r r'.
Proof. intros <- r'. reflexivity. Qed.

(** Recording a response time touches [averageResponseTime] only. *)
Lemma recordResponseTime_counters (a : Analytics) (lastUser : option Message)
    (m : Message) :
  let a' := recordResponseTime a lastUser m in
  totalMessages a' = totalMessages a /\
  userMessages a' = userMessages a /\
  assistantMessages a' = assistantMessages a /\
  firstMessageTime a' = firstMessageTime a /\
  lastMessageTime a' = lastMessageTime a.
Proof.
  unfold recordResponseTime.
  destruct lastUser as [lu|]; [|now repeat split].
  destruct (truthy (timestamp lu) && truthy (timestamp m));
    [|now repeat split].
  destruct (timestamp m), (timestamp lu); now repeat split.
Qed.

Lemma counts_track_empty : counts_track [] emptyStorage.
Proof. repeat split. Qed.

Lemma counts_track_clear (st : Storage) :
  counts_track [] (exec clearMessages st).
Proof. repeat split. Qed.

Lemma counts_track_append (l : list (Z * Message)) (st : Storage)
    (now : Z) (m : Message) :
  counts_track l st ->
  counts_track (l ++ [(now, m)]) (exec (addMessage now m) st).
Proof.
  intros (Hm & Ht & Hu & Ha). unfold counts_track.
  rewrite messagesOf_addMessage, Hm, map_app, length_app.
  rewrite !count_role_snoc.
  split; [reflexivity|].
  destruct (role m) eqn:R.
  - rewrite analyticsOf_addMessage_user by assumption.
    rewrite !(role_cases user) by assumption. simpl. lia.
  - rewrite analyticsOf_addMessage_assistant by assumption.
    rewrite !(role_cases assistant) by assumption.
    cbv zeta.
    destruct (recordResponseTime_counters
                (mkAnalytics (totalMessages (analyticsOf st) + 1)
                   (userMessages (analyticsOf st))
                   (assistantMessages (analyticsOf st) + 1)
                   (averageResponseTime (analyticsOf st))
                   (firstMessageTime (analyticsOf st))
                   (lastMessageTime (analyticsOf st)))
                (find is_user (rev (messagesOf st))) (stamp now m))
      as (-> & -> & -> & _).
    simpl. lia.
  - rewrite analyticsOf_addMessage_system by assumption.
    rewrite !(role_cases system) by assumption. simpl. lia.
Qed.

Lemma run_counts_track (rqs : list Request) :
  counts_track (since_clear rqs) (run rqs emptyStorage).
Proof.
  induction rqs as [|[now m|] rqs IH] using rev_ind.
  - exact counts_track_empty.
  - rewrite run_snoc, since_clear_snoc_append. simpl.
    now apply counts_track_append.
  - rewrite run_snoc, since_clear_snoc_clear. simpl.
    apply counts_track_clear.
Qed.

Lemma recordResponseTime_found (a : Analytics) (lastUser m : Message)
    (t u : Z) :
  timestamp lastUser = Some u -> timestamp m = Some t ->
  u <> 0 -> t <> 0 ->
  recordResponseTime a (Some lastUser) m =
  set_averageResponseTime a
    ((averageResponseTime a * inject_Z (assistantMessages a - 1)
      + inject_Z (t - u)) / inject_Z (assistantMessages a))%Q.
Proof.
  intros Hu Ht Nu Nt. unfold recordResponseTime, truthy.
  rewrite Hu, Ht.
  apply Z.eqb_neq in Nu, Nt. now rewrite Nu, Nt.
Qed.

Lemma running_mean_step (avg : Q) (n sum d : Z) :
  0 <= n ->
  (avg * inject_Z n == inject_Z sum)%Q ->
  ((avg * inject_Z (n + 1 - 1) + inject_Z d) / inject_Z (n + 1)
   * inject_Z (n + 1) == inject_Z (sum + d))%Q.
Proof.
  intros Hn H.
  assert (Hnz : ~ (inject_Z (n + 1) == 0)%Q).
  { change 0%Q with (inject_Z 0). rewrite inject_Z_injective. lia. }
  rewrite Z.add_simpl_r, H, <- inject_Z_plus.
  rewrite Qmult_comm. now apply Qmult_div_r.
Qed.

Lemma after_epoch_first (l : list (Z * Message)) (t : Z) :
  after_epoch l -> first_user_time l = Some t -> 0 < t.
Proof.
  unfold after_epoch, first_user_time. intros Hl H.
  destruct (find (has_role user) l) as [x|] eqn:F; [|discriminate].
  injection H as <-. apply find_some in F as [F _].
  rewrite Forall_forall in Hl. now apply Hl.
Qed.

Lemma after_epoch_last (l : list (Z * Message)) (u : Z) :
  after_epoch l -> last_user_time l = Some u -> 0 < u.
Proof.
  unfold after_epoch, last_user_time. intros Hl H.
  destruct (find (has_role user) (rev l)) as [x|] eqn:F; [|discriminate].
  injection H as <-. apply find_some in F as [F _].
  rewrite Forall_forall in Hl. apply Hl. now apply in_rev.
Qed.

Lemma times_track_empty : times_track [] emptyStorage.
Proof. repeat split. Qed.

Lemma times_track_clear (st : Storage) :
  times_track [] (exec clearMessages st).
Proof. repeat split. Qed.

Lemma times_track_append (l : list (Z * Message)) (st : Storage)
    (now : Z) (m : Message) :
  after_epoch l -> 0 < now ->
  counts_track l st -> times_track l st ->
  times_track (l ++ [(now, m)]) (exec (addMessage now m) st).
Proof.
  intros Hl Hnow (Hm & _ & _ & Ha) (Havg & Hzero & Hf & Hlast).
  unfold times_track.
  rewrite first_user_time_snoc, last_user_time_snoc, recorded_deltas_snoc.
  cbn [fst snd].
  destruct (role m) eqn:R.
  - (* a user message: the mean is not touched *)
    rewrite analyticsOf_addMessage_user by assumption.
    rewrite (role_cases user) by assumption.
    fields. rewrite app_nil_r. repeat split; try assumption.
    destruct (first_user_time l) as [t|] eqn:F; rewrite Hf.
    + pose proof (after_epoch_first l t Hl F) as Pt.
      simpl. destruct (Z.eqb_spec t 0); [lia|reflexivity].
    + reflexivity.
  - (* an assistant message *)
    rewrite analyticsOf_addMessage_assistant by assumption.
    rewrite (role_cases assistant) by assumption.
    cbv zeta. rewrite Hm, last_user_stamped.
    pose proof (count_role_nonneg assistant l) as Hn.
    unfold last_user_time in *.
    destruct (find (has_role user) (rev l)) as [[u mu]|] eqn:F; simpl option_map.
    + pose proof (after_epoch_last l u Hl) as Pu.
      unfold last_user_time in Pu. rewrite F in Pu. specialize (Pu eq_refl).
      rewrite (recordResponseTime_found _ _ _ now u)
        by (reflexivity || lia).
      fields. simpl in Hlast. simpl (Role_eqb _ _). cbv iota.
      split; [|split; [|split]].
      * rewrite Ha in *. rewrite sumZ_app. simpl sumZ. rewrite Z.add_0_r.
        now apply running_mean_step.
      * intros E. destruct (recorded_deltas l); discriminate.
      * rewrite Hf. now destruct (first_user_time l).
      * exact Hlast.
    + simpl recordResponseTime. fields. rewrite app_nil_r.
      simpl in Hlast. simpl (Role_eqb _ _). cbv iota.
      assert (Hd : recorded_deltas l = []).
      { apply no_user_no_deltas. unfold last_user_time. now rewrite F. }
      split; [|split; [|split]].
      * rewrite (Hzero Hd), Hd. apply Qmult_0_l.
      * intros _. exact (Hzero Hd).
      * rewrite Hf. now destruct (first_user_time l).
      * exact Hlast.
  - (* a system message counts toward the total only *)
    rewrite analyticsOf_addMessage_system by assumption.
    rewrite (role_cases system) by assumption.
    fields. rewrite app_nil_r, Hf. repeat split; try assumption.
    now destruct (first_user_time l).
Qed.

Lemma after_epoch_since_clear (rqs : list Request) :
  clock_positive rqs = true -> after_epoch (since_clear rqs).
Proof.
  unfold clock_positive, after_epoch.
  induction rqs as [|[now m|] rqs IH] using rev_ind; intros H.
  - constructor.
  - rewrite clock_readings_app, forallb_app in H.
    apply andb_prop in H as [H1 H2]. simpl in H2.
    rewrite since_clear_snoc_append. apply Forall_app. split; [auto|].
    constructor; [|constructor]. simpl.
    apply Z.ltb_lt. now destruct (0 <? now).
  - rewrite since_clear_snoc_clear. constructor.
Qed.

Lemma run_times_track (rqs : list Request) :
  clock_positive rqs = true ->
  times_track (since_clear rqs) (run rqs emptyStorage).
Proof.
  induction rqs as [|[now m|] rqs IH] using rev_ind; intros H.
  - exact times_track_empty.
  - rewrite run_snoc, since_clear_snoc_append. simpl.
    unfold clock_positive in H.
    rewrite clock_readings_app, forallb_app in H.
    apply andb_prop in H as [H1 H2]. simpl in H2.
    apply times_track_append.
    + now apply after_epoch_since_clear.
    + apply Z.ltb_lt. now destruct (0 <? now).
    + apply run_counts_track.
    + now apply IH.
  - rewrite run_snoc, since_clear_snoc_clear. simpl.
    apply times_track_clear.
Qed.

(** * The claims *)

(** ** C1: the total and the two role counters *)

(** C1, counterexample: one system message appended to a fresh session is
    counted in [totalMessages] (line 58) and in neither role counter, so the
    total is 1 while the two counters add up to 0. *)
Lemma system_message_breaks_total :
  ~ total_is_user_plus_assistant
      [Append 1700000000000 (mkMessage system "You are a helpful chatbot." None)].
Proof. unfold total_is_user_plus_assistant. vm_compute. discriminate. Qed.

(** C1, amended: after any sequence of appends and clears,
    [totalMessages = userMessages + assistantMessages + s], where [s] is the
    number of system messages appended since the last clear; each of the
    three counters is the number of appends of its kind.  Since every prefix
    of a request sequence is a request sequence, this holds after each
    append. *)
Theorem totalMessages_counts_every_role (rqs : list Request) :
  let a := analyticsOf (run rqs emptyStorage) in
  let l := since_clear rqs in
  totalMessages a = Z.of_nat (List.length l) /\
  userMessages a = count_role user l /\
  assistantMessages a = count_role assistant l /\
  totalMessages a =
    userMessages a + assistantMessages a + count_role system l.
Proof.
  destruct (run_counts_track rqs) as (_ & Ht & Hu & Ha).
  cbv zeta. rewrite Ht, Hu, Ha, count_role_total. repeat split.
Qed.

(** ** C2: the running mean *)


(** The invariant the code keeps for every sequence: the stored average
    times [assistantMessages] is the sum of the recorded deltas. *)
Lemma average_times_count (rqs : list Request) :
  clock_positive rqs = true ->
  let a := analyticsOf (run rqs emptyStorage) in
  (averageResponseTime a * inject_Z (assistantMessages a)
   == inject_Z (sumZ (recorded_deltas (since_clear rqs))))%Q.
Proof. intros H. now destruct (run_times_track rqs H). Qed.




(** ** C3: the worked example *)

(** C3: in a fresh session, a user message stamped 1000 followed by an
    assistant message stamped 1500 gives [averageResponseTime == 500] and
    [assistantMessages = 1]; a further user message stamped [t] (any
    positive clock reading) answered at [t + 300] then gives
    [averageResponseTime == 400] and [assistantMessages = 2].  The contents
    and the caller-supplied timestamps are arbitrary. *)
Theorem response_time_worked_example
    (c1 c2 c3 c4 : string) (ts1 ts2 ts3 ts4 : option Z) (t : Z) :
  0 < t ->
  let st1 := run [Append 1000 (mkMessage user c1 ts1);
                  Append 1500 (mkMessage assistant c2 ts2)] emptyStorage in
  let st2 := run [Append t (mkMessage user c3 ts3);
                  Append (t + 300) (mkMessage assistant c4 ts4)] st1 in
  (averageResponseTime (analyticsOf st1) == 500 # 1)%Q /\
  assistantMessages (analyticsOf st1) = 1 /\
  (averageResponseTime (analyticsOf st2) == 400 # 1)%Q /\
  assistantMessages (analyticsOf st2) = 2.
Proof.
  intros Ht. cbv zeta.
  split; [reflexivity|]. split; [reflexivity|].
  unfold run. cbn [fold_left step].
  rewrite analyticsOf_addMessage_assistant by reflexivity.
  rewrite messagesOf_addMessage.
  rewrite rev_app_distr.
  cbn [rev app find is_user role Role_eqb stamp].
  rewrite (recordResponseTime_found _ _ _ (t + 300) t) by (reflexivity || lia).
  rewrite analyticsOf_addMessage_user by reflexivity.
  fields. replace (t + 300 - t) with 300 by lia.
  split; reflexivity.
Qed.

Lemma response_time_worked_example_witness :
  0 < 2000 /\
  let st1 := run [Append 1000 (mkMessage user "hi" None);
                  Append 1500 (mkMessage assistant "hello" None)]
                 emptyStorage in
  let st2 := run [Append 2000 (mkMessage user "more" (Some 7));
                  Append (2000 + 300) (mkMessage assistant "sure" None)]
                 st1 in
  (averageResponseTime (analyticsOf st1) == 500 # 1)%Q /\
  assistantMessages (analyticsOf st1) = 1 /\
  (averageResponseTime (analyticsOf st2) == 400 # 1)%Q /\
  assistantMessages (analyticsOf st2) = 2.
Proof.
  split; [lia|].
  apply (response_time_worked_example "hi" "hello" "more" "sure"
           None None (Some 7) None 2000).
  lia.
Defined.

(** ** C4: an assistant message that answers nobody *)

Lemma no_user_found (ms : list Message) :
  existsb is_user ms = false -> find is_user (rev ms) = None.
Proof.
  intros H. destruct (find is_user (rev ms)) as [x|] eqn:F; [|reflexivity].
  apply find_some in F as [Hin Hx]. apply in_rev in Hin.
  assert (existsb is_user ms = true) as E
    by (apply existsb_exists; now exists x).
  congruence.
Qed.

(** C4: whatever the stored state, if the history holds no user message
    then appending an assistant message leaves [averageResponseTime] as it
    was; appended to a session never accessed before, it leaves it 0. *)
Theorem assistant_without_user_keeps_average
    (st : Storage) (now : Z) (m : Message) :
  role m = assistant ->
  existsb is_user (messagesOf st) = false ->
  averageResponseTime (analyticsOf (exec (addMessage now m) st)) =
    averageResponseTime (analyticsOf st) /\
  averageResponseTime (analyticsOf (exec (addMessage now m) emptyStorage)) =
    0 # 1.
Proof.
  intros Hr Hno.
  rewrite !analyticsOf_addMessage_assistant by assumption.
  rewrite (no_user_found _ Hno). split; reflexivity.
Qed.

Lemma assistant_without_user_keeps_average_witness :
  let st := run [Append 1000 (mkMessage assistant "welcome" None);
                 Append 1200 (mkMessage system "be brief" None)]
                emptyStorage in
  let m := mkMessage assistant "anyone there?" None in
  role m = assistant /\
  existsb is_user (messagesOf st) = false /\
  averageResponseTime (analyticsOf (exec (addMessage 1500 m) st)) =
    averageResponseTime (analyticsOf st) /\
  averageResponseTime (analyticsOf (exec (addMessage 1500 m) emptyStorage)) =
    0 # 1.
Proof.
  cbv zeta. split; [reflexivity|]. split; [reflexivity|].
  apply assistant_without_user_keeps_average; reflexivity.
Defined.

(** ** C5: the instant of the first user message *)

Lemma firstMessageTime_kept (st : Storage) (t now : Z) (m : Message) :
  firstMessageTime (analyticsOf st) = Some t -> t <> 0 ->
  firstMessageTime (analyticsOf (exec (addMessage now m) st)) = Some t.
Proof.
  intros H Ht. destruct (role m) eqn:R.
  - rewrite analyticsOf_addMessage_user by assumption. fields.
    rewrite H. simpl. now destruct (Z.eqb_spec t 0).
  - rewrite analyticsOf_addMessage_assistant by assumption. cbv zeta.
    match goal with
    | |- firstMessageTime (recordResponseTime ?a ?u ?x) = _ =>
        destruct (recordResponseTime_counters a u x) as (_ & _ & _ & -> & _)
    end.
    exact H.
  - rewrite analyticsOf_addMessage_system by assumption. exact H.
Qed.

(** C5: when every clock reading is positive, after any sequence of appends
    and clears [firstMessageTime] is the clock reading of the first user
    message appended since the last clear (unset while there is none), and
    once it is set no further append, of a user message or of any other,
    changes it. *)
Theorem firstMessageTime_set_once (rqs : list Request) :
  clock_positive rqs = true ->
  let st := run rqs emptyStorage in
  firstMessageTime (analyticsOf st) = first_user_time (since_clear rqs) /\
  (forall (t now : Z) (m : Message),
      first_user_time (since_clear rqs) = Some t ->
      firstMessageTime (analyticsOf (exec (addMessage now m) st)) = Some t).
Proof.
  intros Hc. cbv zeta.
  destruct (run_times_track rqs Hc) as (_ & _ & Hf & _).
  split; [exact Hf|].
  intros t now m Ht. apply firstMessageTime_kept; [congruence|].
  pose proof (after_epoch_first _ t (after_epoch_since_clear rqs Hc) Ht).
  lia.
Qed.

Lemma firstMessageTime_set_once_witness :
  let rqs := [Append 900 (mkMessage user "old" None);
              Clear;
              Append 1000 (mkMessage user "hi" None);
              Append 1500 (mkMessage assistant "hello" None);
              Append 2000 (mkMessage user "again" None)] in
  clock_positive rqs = true /\
  firstMessageTime (analyticsOf (run rqs emptyStorage)) = Some 1000 /\
  firstMessageTime
    (analyticsOf
       (exec (addMessage 2500 (mkMessage user "third" None))
          (run rqs emptyStorage))) = Some 1000.
Proof.
  cbv zeta. split; [reflexivity|].
  match goal with
  | |- context [run ?rqs emptyStorage] =>
      destruct (firstMessageTime_set_once rqs eq_refl) as [H1 H2]
  end.
  split; [exact H1|].
  apply H2. reflexivity.
Defined.

(** ** C6 and C10: clearing *)

(** C6: after any sequence of appends (and clears), [clearMessages] leaves
    a history of length 0 and the zeroed analytics: the four counters 0,
    [firstMessageTime] and [lastMessageTime] unset. *)
Theorem clear_resets_session (rqs : list Request) :
  let st := exec clearMessages (run rqs emptyStorage) in
  List.length (messagesOf st) = 0%nat /\
  analyticsOf st = zeroAnalytics /\
  totalMessages (analyticsOf st) = 0 /\
  userMessages (analyticsOf st) = 0 /\
  assistantMessages (analyticsOf st) = 0 /\
  averageResponseTime (analyticsOf st) = 0 # 1 /\
  firstMessageTime (analyticsOf st) = None /\
  lastMessageTime (analyticsOf st) = None.
Proof.
  cbv zeta.
  rewrite messagesOf_clear, analyticsOf_clear. repeat split.
Qed.

(** C10: [clearMessages] run twice leaves the storage that one run leaves,
    namely the empty message list and the zeroed analytics, whatever the
    storage held before. *)
Theorem clearMessages_idempotent (st st' : Storage) :
  exec clearMessages (exec clearMessages st) = exec clearMessages st /\
  exec clearMessages st = mkStorage (Some []) (Some zeroAnalytics) /\
  exec clearMessages st = exec clearMessages st'.
Proof. repeat split. Qed.

(** ** C7: timestamps come from the clock *)

(** The readings taken since the last clear close the list of all
    readings. *)
Lemma clock_readings_since_clear (rqs : list Request) :
  exists earlier,
    clock_readings rqs = earlier ++ map fst (since_clear rqs).
Proof.
  induction rqs as [|[now m|] rqs [earlier IH]] using rev_ind.
  - now exists [].
  - exists earlier.
    rewrite clock_readings_app, since_clear_snoc_append, map_app, IH.
    simpl. now rewrite app_assoc.
  - exists (clock_readings rqs).
    rewrite clock_readings_app, since_clear_snoc_clear. reflexivity.
Qed.

Lemma StronglySorted_suffix (l1 l2 : list Z) :
  StronglySorted Z.le (l1 ++ l2) -> StronglySorted Z.le l2.
Proof.
  induction l1 as [|a l1 IH]; simpl; intros H; [exact H|].
  apply IH. now apply StronglySorted_inv in H.
Qed.

Lemma stored_timestamps_run (rqs : list Request) :
  stored_timestamps (run rqs emptyStorage) =
  map Some (map fst (since_clear rqs)).
Proof.
  unfold stored_timestamps.
  destruct (run_counts_track rqs) as (-> & _).
  rewrite !map_map. reflexivity.
Qed.

(** C7: [addMessage] stores the message with the clock reading taken at the
    append as its timestamp, whatever timestamp the caller supplied; and
    when the readings of a request sequence are non-decreasing, every stored
    message carries a timestamp and these are non-decreasing in append
    order. *)
Theorem timestamps_assigned_and_monotone :
  (forall (st : Storage) (now : Z) (m : Message),
      messagesOf (exec (addMessage now m) st) =
      messagesOf st ++ [mkMessage (role m) (content m) (Some now)]) /\
  (forall rqs : list Request,
      Sorted Z.le (clock_readings rqs) ->
      exists ts : list Z,
        stored_timestamps (run rqs emptyStorage) = map Some ts /\
        StronglySorted Z.le ts).
Proof.
  split.
  - exact messagesOf_addMessage.
  - intros rqs Hs. exists (map fst (since_clear rqs)).
    split; [apply stored_timestamps_run|].
    apply Sorted_StronglySorted in Hs; [|exact Z.le_trans].
    destruct (clock_readings_since_clear rqs) as [earlier E].
    rewrite E in Hs. now apply StronglySorted_suffix in Hs.
Qed.

Lemma timestamps_assigned_and_monotone_witness :
  let rqs := [Append 1000 (mkMessage user "hi" (Some 5));
              Append 1500 (mkMessage assistant "hello" None);
              Append 1500 (mkMessage user "again" (Some 99999))] in
  Sorted Z.le (clock_readings rqs) /\
  exists ts : list Z,
    stored_timestamps (run rqs emptyStorage) = map Some ts /\
    StronglySorted Z.le ts.
Proof.
  cbv zeta.
  match goal with
  | |- Sorted Z.le (clock_readings ?rqs) /\ _ =>
      assert (H : Sorted Z.le (clock_readings rqs))
        by (simpl; repeat constructor; apply Zle_bool_imp_le; reflexivity);
      split; [exact H|];
      exact (proj2 timestamps_assigned_and_monotone rqs H)
  end.
Defined.

(** ** C8: a session never accessed before *)

(** C8: on the storage of a session that was never accessed, [getMessages]
    resolves to the empty list and [getAnalytics] to the zeroed analytics;
    both are total, and neither writes to the storage. *)
Theorem fresh_session_defaults :
  eval getMessages emptyStorage = [] /\
  eval getAnalytics emptyStorage = zeroAnalytics /\
  exec getMessages emptyStorage = emptyStorage /\
  exec getAnalytics emptyStorage = emptyStorage.
Proof. repeat split. Qed.

(** ** Requests served one after the other *)

(** Two appends served in turn are both in the ledger, in that order, and
    both are counted.  (How the runtime interleaves two [addMessage] calls
    that are in flight at once is outside this embedding.) *)
Lemma serial_appends_both_kept (st : Storage) (nowA nowB : Z) (a b : Message) :
  let st' := run [Append nowA a; Append nowB b] st in
  messagesOf st' = messagesOf st ++ [stamp nowA a; stamp nowB b] /\
  totalMessages (analyticsOf st') = totalMessages (analyticsOf st) + 2.
Proof.
  cbv zeta. unfold run. cbn [fold_left step]. split.
  - rewrite !messagesOf_addMessage, <- app_assoc. reflexivity.
  - assert (bump : forall s now m,
               totalMessages (analyticsOf (exec (addMessage now m) s)) =
               totalMessages (analyticsOf s) + 1).
    { intros s now m. destruct (role m) eqn:R.
      - now rewrite analyticsOf_addMessage_user.
      - rewrite analyticsOf_addMessage_assistant by assumption. cbv zeta.
        match goal with
        | |- totalMessages (recordResponseTime ?x ?u ?y) = _ =>
            destruct (recordResponseTime_counters x u y) as (-> & _)
        end.
        reflexivity.
      - now rewrite analyticsOf_addMessage_system. }
    rewrite !bump. lia.
Qed.

(** * Further properties of [AgentState] *)

(** ** The ledger is the log of the appends *)

(** X1: after any sequence of appends and clears, [getMessages] returns
    exactly the messages appended since the last clear, in append order, each with
    the role and content it was given and the clock reading of its append as
    timestamp. *)
Theorem ledger_is_append_log (rqs : list Request) :
  messagesOf (run rqs emptyStorage) =
  map (fun x => mkMessage (role (snd x)) (content (snd x)) (Some (fst x)))
      (since_clear rqs).
Proof. now destruct (run_counts_track rqs) as (-> & _). Qed.

Lemma count_stored_stamped (r : Role) (l : list (Z * Message)) :
  count_stored r (map stamped l) = count_role r l.
Proof.
  unfold count_stored, count_role. f_equal. f_equal.
  induction l as [|x l IH]; [reflexivity|]. simpl.
  change (has_stored_role r (stamped x)) with (has_role r x).
  destruct (has_role r x); simpl; now rewrite IH.
Qed.

(** X2: the two storage records agree: after any sequence of appends and
    clears, [totalMessages] is the length of the stored ledger, and
    [userMessages] and [assistantMessages] are the numbers of stored
    messages of role user and assistant. *)
Theorem analytics_agree_with_ledger (rqs : list Request) :
  let st := run rqs emptyStorage in
  totalMessages (analyticsOf st) = Z.of_nat (List.length (messagesOf st)) /\
  userMessages (analyticsOf st) = count_stored user (messagesOf st) /\
  assistantMessages (analyticsOf st) = count_stored assistant (messagesOf st).
Proof.
  cbv zeta. destruct (run_counts_track rqs) as (Hm & Ht & Hu & Ha).
  rewrite Hm, !count_stored_stamped, length_map. auto.
Qed.

(** ** What one append leaves alone *)

Lemma analyticsOf_addMessage_total (st : Storage) (now : Z) (m : Message) :
  totalMessages (analyticsOf (exec (addMessage now m) st)) =
  totalMessages (analyticsOf st) + 1.
Proof.
  destruct (role m) eqn:R.
  - now rewrite analyticsOf_addMessage_user.
  - rewrite analyticsOf_addMessage_assistant by assumption. cbv zeta.
    match goal with
    | |- totalMessages (recordResponseTime ?x ?u ?y) = _ =>
        destruct (recordResponseTime_counters x u y) as (-> & _)
    end.
    reflexivity.
  - now rewrite analyticsOf_addMessage_system.
Qed.

(** X3: whatever the stored state, one [addMessage] adds 1 to
    [totalMessages] and keeps the stored messages as a prefix of the ledger.  A user message
    leaves [assistantMessages] and [averageResponseTime] alone and sets
    [lastMessageTime] to the clock reading; an assistant message leaves
    [userMessages], [firstMessageTime] and [lastMessageTime] alone; a system
    message changes no field but the total. *)
Theorem addMessage_frame (st : Storage) (now : Z) (m : Message) :
  let a := analyticsOf st in
  let a' := analyticsOf (exec (addMessage now m) st) in
  totalMessages a' = totalMessages a + 1 /\
  firstn (List.length (messagesOf st))
         (messagesOf (exec (addMessage now m) st)) = messagesOf st /\
  match role m with
  | user =>
      userMessages a' = userMessages a + 1 /\
      assistantMessages a' = assistantMessages a /\
      averageResponseTime a' = averageResponseTime a /\
      lastMessageTime a' = Some now
  | assistant =>
      assistantMessages a' = assistantMessages a + 1 /\
      userMessages a' = userMessages a /\
      firstMessageTime a' = firstMessageTime a /\
      lastMessageTime a' = lastMessageTime a
  | system =>
      a' = set_totalMessages a (totalMessages a + 1)
  end.
Proof.
  cbv zeta. split; [apply analyticsOf_addMessage_total|].
  split.
  { rewrite messagesOf_addMessage, firstn_app, Nat.sub_diag, firstn_all.
    simpl. apply app_nil_r. }
  destruct (role m) eqn:R.
  - rewrite analyticsOf_addMessage_user by assumption. now repeat split.
  - rewrite analyticsOf_addMessage_assistant by assumption. cbv zeta.
    match goal with
    | |- context [recordResponseTime ?x ?u ?y] =>
        destruct (recordResponseTime_counters x u y)
          as (_ & -> & -> & -> & ->)
    end.
    now repeat split.
  - now apply analyticsOf_addMessage_system.
Qed.

(** ** A cleared session is a fresh session *)

Lemma step_observed (st1 st2 : Storage) (rq : Request) :
  messagesOf st1 = messagesOf st2 ->
  analyticsOf st1 = analyticsOf st2 ->
  messagesOf (step st1 rq) = messagesOf (step st2 rq) /\
  analyticsOf (step st1 rq) = analyticsOf (step st2 rq).
Proof.
  intros Hm Ha. destruct rq as [now m|]; simpl; [|now split].
  rewrite !messagesOf_addMessage, Hm. split; [reflexivity|].
  destruct (role m) eqn:R.
  - rewrite !analyticsOf_addMessage_user by assumption. now rewrite Ha.
  - rewrite !analyticsOf_addMessage_assistant by assumption.
    now rewrite Ha, Hm.
  - rewrite !analyticsOf_addMessage_system by assumption. now rewrite Ha.
Qed.

Lemma run_observed (rqs : list Request) (st1 st2 : Storage) :
  messagesOf st1 = messagesOf st2 ->
  analyticsOf st1 = analyticsOf st2 ->
  messagesOf (run rqs st1) = messagesOf (run rqs st2) /\
  analyticsOf (run rqs st1) = analyticsOf (run rqs st2).
Proof.
  revert st1 st2. induction rqs as [|rq rqs IH]; intros st1 st2 Hm Ha.
  - now split.
  - simpl. destruct (step_observed st1 st2 rq Hm Ha) as [Hm' Ha'].
    now apply IH.
Qed.

(** X4: whatever a session held, once cleared it answers every later
    sequence of appends and clears exactly as a session that was never accessed:
    the same ledger and the same analytics after each of them. *)
Theorem cleared_session_is_fresh (st : Storage) (rqs : list Request) :
  messagesOf (run rqs (exec clearMessages st)) =
    messagesOf (run rqs emptyStorage) /\
  analyticsOf (run rqs (exec clearMessages st)) =
    analyticsOf (run rqs emptyStorage).
Proof. now apply run_observed. Qed.

(** ** Instants and response times under a monotone clock *)

Lemma last_user_time_cons (x : Z * Message) (l : list (Z * Message)) :
  last_user_time (x :: l) =
  match last_user_time l with
  | Some t => Some t
  | None => if has_role user x then Some (fst x) else None
  end.
Proof.
  unfold last_user_time. simpl. rewrite find_append.
  destruct (find (has_role user) (rev l)); [reflexivity|].
  simpl. now destruct (has_role user x).
Qed.

Lemma last_user_time_in (l : list (Z * Message)) (t : Z) :
  last_user_time l = Some t -> In t (map fst l).
Proof.
  unfold last_user_time. intros H.
  destruct (find (has_role user) (rev l)) as [x|] eqn:F; [|discriminate].
  injection H as <-. apply find_some in F as [F _].
  apply in_map. now apply in_rev.
Qed.

Lemma first_before_last (l : list (Z * Message)) :
  StronglySorted Z.le (map fst l) ->
  match first_user_time l, last_user_time l with
  | Some f, Some t => f <= t
  | None, None => True
  | _, _ => False
  end.
Proof.
  induction l as [|x l IH]; intros Hs; [exact I|].
  simpl in Hs. apply StronglySorted_inv in Hs as [Hs Hx].
  specialize (IH Hs). rewrite last_user_time_cons.
  unfold first_user_time in *. simpl.
  destruct (has_role user x) eqn:U; simpl.
  - destruct (last_user_time l) as [t|] eqn:L; [|lia].
    rewrite Forall_forall in Hx. apply Hx. now apply last_user_time_in.
  - now destruct (last_user_time l).
Qed.

(** X5: when the clock readings are positive and non-decreasing, after any
    sequence of appends and clears [lastMessageTime] is the reading of the
    latest user append since the last clear, [firstMessageTime] and
    [lastMessageTime] are set together, and [firstMessageTime <=
    lastMessageTime]: the session duration the page shows is never
    negative. *)
Theorem session_duration_nonnegative (rqs : list Request) :
  clock_positive rqs = true ->
  Sorted Z.le (clock_readings rqs) ->
  let a := analyticsOf (run rqs emptyStorage) in
  lastMessageTime a = last_user_time (since_clear rqs) /\
  match firstMessageTime a, lastMessageTime a with
  | Some f, Some t => f <= t
  | None, None => True
  | _, _ => False
  end.
Proof.
  intros Hc Hs. cbv zeta.
  destruct (run_times_track rqs Hc) as (_ & _ & -> & ->).
  split; [reflexivity|].
  apply first_before_last.
  apply Sorted_StronglySorted in Hs; [|exact Z.le_trans].
  destruct (clock_readings_since_clear rqs) as [earlier E].
  rewrite E in Hs. now apply StronglySorted_suffix in Hs.
Qed.

Lemma session_duration_nonnegative_witness :
  let rqs := [Append 1000 (mkMessage user "hi" None);
              Append 1500 (mkMessage assistant "hello" None);
              Append 2000 (mkMessage user "again" None)] in
  clock_positive rqs = true /\
  Sorted Z.le (clock_readings rqs) /\
  firstMessageTime (analyticsOf (run rqs emptyStorage)) = Some 1000 /\
  lastMessageTime (analyticsOf (run rqs emptyStorage)) = Some 2000.
Proof.
  cbv zeta.
  match goal with
  | |- _ /\ Sorted Z.le (clock_readings ?rqs) /\ _ =>
      assert (H : Sorted Z.le (clock_readings rqs))
        by (simpl; repeat constructor; apply Zle_bool_imp_le; reflexivity);
      pose proof (session_duration_nonnegative rqs eq_refl H) as W
  end.
  split; [reflexivity|]. split; [exact H|].
  split; [reflexivity|]. exact (proj1 W).
Defined.

Lemma deltas_nonnegative (pending : option Z) (l : list (Z * Message)) :
  StronglySorted Z.le (map fst l) ->
  (forall u, pending = Some u -> Forall (Z.le u) (map fst l)) ->
  Forall (Z.le 0) (recorded_deltas_from pending l).
Proof.
  revert pending.
  induction l as [|[t [r c ts]] l IH]; intros pending Hs Hp; [constructor|].
  simpl in Hs. apply StronglySorted_inv in Hs as [Hs Ht].
  assert (Hrest : forall u, pending = Some u -> Forall (Z.le u) (map fst l)).
  { intros u E. specialize (Hp u E). now inversion Hp. }
  destruct r; simpl.
  - apply IH; [assumption|]. intros u E. injection E as <-. exact Ht.
  - destruct pending as [u|]; [|now apply IH].
    constructor; [|now apply IH].
    specialize (Hp u eq_refl). inversion Hp; subst. simpl in *. lia.
  - now apply IH.
Qed.

Lemma sumZ_nonnegative (l : list Z) : Forall (Z.le 0) l -> 0 <= sumZ l.
Proof. induction 1; simpl; lia. Qed.

Lemma deltas_at_most_answers (pending : option Z) (l : list (Z * Message)) :
  Z.of_nat (List.length (recorded_deltas_from pending l)) <=
  count_role assistant l.
Proof.
  revert pending.
  induction l as [|[t [r c ts]] l IH]; intros pending; [reflexivity|].
  rewrite count_role_cons.
  destruct r; cbn [recorded_deltas_from role has_role snd Role_eqb].
  - specialize (IH (Some t)). lia.
  - destruct pending as [u|]; cbn [List.length].
    + rewrite Nat2Z.inj_succ. specialize (IH (Some u)). lia.
    + specialize (IH None). lia.
  - specialize (IH pending). lia.
Qed.

(** X6: when the clock readings are positive and non-decreasing, after any
    sequence of appends and clears [averageResponseTime] is not negative. *)
Theorem averageResponseTime_nonnegative (rqs : list Request) :
  clock_positive rqs = true ->
  Sorted Z.le (clock_readings rqs) ->
  (0 <= averageResponseTime (analyticsOf (run rqs emptyStorage)))%Q.
Proof.
  intros Hc Hs.
  destruct (run_counts_track rqs) as (_ & _ & _ & Hn).
  destruct (run_times_track rqs Hc) as (Havg & Hzero & _ & _).
  assert (Hsum : 0 <= sumZ (recorded_deltas (since_clear rqs))).
  { apply sumZ_nonnegative, deltas_nonnegative; [|discriminate].
    apply Sorted_StronglySorted in Hs; [|exact Z.le_trans].
    destruct (clock_readings_since_clear rqs) as [earlier E].
    rewrite E in Hs. now apply StronglySorted_suffix in Hs. }
  pose proof (deltas_at_most_answers None (since_clear rqs)) as Hle.
  fold (recorded_deltas (since_clear rqs)) in Hle.
  pose proof (count_role_nonneg assistant (since_clear rqs)) as Hpos.
  rewrite Hn in Havg.
  destruct (Z.eq_dec (count_role assistant (since_clear rqs)) 0) as [Z0|NZ].
  - rewrite Hzero; [apply Qle_refl|].
    destruct (recorded_deltas (since_clear rqs)); [reflexivity|].
    simpl List.length in Hle. lia.
  - assert (Hn0 : (0 < inject_Z (count_role assistant (since_clear rqs)))%Q).
    { change 0%Q with (inject_Z 0). rewrite <- Zlt_Qlt. lia. }
    rewrite <- (Qdiv_mult_l (averageResponseTime _)
                  (inject_Z (count_role assistant (since_clear rqs))))
      by (intros E; rewrite E in Hn0; now apply Qlt_irrefl in Hn0).
    rewrite Havg.
    apply Qle_shift_div_l; [exact Hn0|].
    rewrite Qmult_0_l. change 0%Q with (inject_Z 0). now rewrite <- Zle_Qle.
Qed.

Lemma averageResponseTime_nonnegative_witness :
  let rqs := [Append 1000 (mkMessage user "hi" None);
              Append 1500 (mkMessage assistant "hello" None);
              Append 1500 (mkMessage assistant "and welcome" None)] in
  clock_positive rqs = true /\
  Sorted Z.le (clock_readings rqs) /\
  (0 <= averageResponseTime (analyticsOf (run rqs emptyStorage)))%Q.
Proof.
  cbv zeta.
  match goal with
  | |- _ /\ Sorted Z.le (clock_readings ?rqs) /\ _ =>
      assert (H : Sorted Z.le (clock_readings rqs))
        by (simpl; repeat constructor; apply Zle_bool_imp_le; reflexivity);
      split; [reflexivity|]; split; [exact H|];
      exact (averageResponseTime_nonnegative rqs eq_refl H)
  end.
Defined.

(** ** The premise [rounding_free] is what exactness needs *)

Lemma binary64_number_Qeq (q q' : Q) :
  (q == q')%Q -> binary64_number q = binary64_number q'.
Proof. intros E. unfold binary64_number. now rewrite (Qred_complete _ _ E). Qed.

Lemma binary64_number_integer (z : Z) :
  (Z.abs z <? 2 ^ 53) = true -> binary64_number (inject_Z z) = true.
Proof.
  intros H. unfold binary64_number.
  rewrite Qred_identity by (simpl; apply Z.gcd_1_r).
  cbn [Qnum Qden inject_Z]. rewrite H. reflexivity.
Qed.

Lemma rounding_free_from_snoc (n sum : Z) (ds : list Z) (d : Z) :
  rounding_free_from n sum (ds ++ [d]) =
  rounding_free_from n sum ds
  && rounding_free_from (n + Z.of_nat (List.length ds)) (sum + sumZ ds) [d].
Proof.
  remember [d] as tail eqn:T. clear T.
  revert n sum. induction ds as [|x ds IH]; intros n sum.
  - cbn [app List.length sumZ fold_right rounding_free_from andb].
    now rewrite !Z.add_0_r.
  - cbn [app List.length sumZ fold_right].
    change (fold_right Z.add 0 ds) with (sumZ ds).
    cbn [rounding_free_from]. rewrite IH.
    replace (n + 1 + Z.of_nat (List.length ds))
      with (n + Z.of_nat (S (List.length ds))) by lia.
    replace (sum + x + sumZ ds) with (sum + (x + sumZ ds)) by lia.
    now rewrite !andb_assoc.
Qed.

Lemma answers_only_from_snoc (seen : bool) (l : list (Z * Message))
    (x : Z * Message) :
  answers_only_from seen (l ++ [x]) = true ->
  role (snd x) = assistant ->
  answers_only_from seen l = true /\
  (seen = true \/ exists u, last_user_time l = Some u).
Proof.
  revert seen. induction l as [|[t [r c ts]] l IH]; intros seen H R.
  - destruct x as [tx [rx cx tsx]]. simpl in R. subst rx. simpl in H.
    rewrite andb_true_r in H. split; [reflexivity|now left].
  - rewrite last_user_time_cons. unfold has_role. cbn [snd role fst].
    destruct r; simpl in H |- *.
    + destruct (IH true H R) as [A _]. split; [exact A|]. right.
      cbn [Role_eqb]. destruct (last_user_time l) as [u|]; eauto.
    + apply andb_prop in H as [-> H].
      destruct (IH true H R) as [A _]. split; [exact A|now left].
    + destruct (IH seen H R) as [A [B|[u B]]];
        (split; [exact A|]); [now left|right].
      rewrite B. eauto.
Qed.

(** When an assistant message is appended to a session as above and the
    samples, the new one included, are [rounding_free], the exact results of
    the four operations of lines 74-77 are binary64 numbers: none of them
    rounds, and the double the code stores is the rational of the model. *)
Lemma no_rounding_at_answer (rqs : list Request) (now : Z) (m : Message) :
  clock_positive (rqs ++ [Append now m]) = true ->
  answers_only (since_clear (rqs ++ [Append now m])) = true ->
  role m = assistant ->
  rounding_free (recorded_deltas (since_clear (rqs ++ [Append now m])))
    = true ->
  let a := analyticsOf (run rqs emptyStorage) in
  exists u,
    last_user_time (since_clear rqs) = Some u /\
    forallb binary64_number
      (responseTimeSteps
         (set_assistantMessages a (assistantMessages a + 1)) now u) = true.
Proof.
  intros Hc Ha R Hr. cbv zeta.
  rewrite since_clear_snoc_append in Ha, Hr.
  destruct (answers_only_from_snoc false _ _ Ha R) as [Ha' [F|[u Hu]]];
    [discriminate|].
  exists u. split; [exact Hu|].
  rewrite recorded_deltas_snoc in Hr. cbn [snd fst] in Hr.
  rewrite R, Hu in Hr.
  unfold rounding_free in Hr. rewrite rounding_free_from_snoc in Hr.
  apply andb_prop in Hr as [_ Hr]. cbn [rounding_free_from] in Hr.
  rewrite andb_true_r, !Z.add_0_l in Hr.
  repeat (apply andb_prop in Hr as [Hr ?]).
  assert (Hc' : clock_positive rqs = true).
  { unfold clock_positive in *.
    rewrite clock_readings_app, forallb_app in Hc.
    now apply andb_prop in Hc as [Hc _]. }
  destruct (run_counts_track rqs) as (_ & _ & _ & Hn).
  destruct (run_times_track rqs Hc') as (Havg & _).
  pose proof (deltas_one_per_answer false None (since_clear rqs)
                ltac:(discriminate) Ha') as Hlen.
  fold (recorded_deltas (since_clear rqs)) in Hlen.
  rewrite <- Hn in Hlen.
  set (a := analyticsOf (run rqs emptyStorage)) in *.
  set (ds := recorded_deltas (since_clear rqs)) in *.
  unfold responseTimeSteps.
  cbn [averageResponseTime assistantMessages set_assistantMessages
       forallb].
  rewrite Z.add_simpl_r, andb_true_r.
  assert (P : (averageResponseTime a * inject_Z (assistantMessages a)
               == inject_Z (sumZ ds))%Q) by exact Havg.
  rewrite (binary64_number_integer (now - u)) by assumption.
  rewrite (binary64_number_Qeq _ _ P).
  rewrite (binary64_number_integer (sumZ ds)) by assumption.
  assert (S : (averageResponseTime a * inject_Z (assistantMessages a)
               + inject_Z (now - u) == inject_Z (sumZ ds + (now - u)))%Q)
    by (rewrite P, inject_Z_plus; reflexivity).
  rewrite (binary64_number_Qeq _ _ S).
  rewrite (binary64_number_integer (sumZ ds + (now - u))) by assumption.
  assert (D : ((averageResponseTime a * inject_Z (assistantMessages a)
                + inject_Z (now - u)) / inject_Z (assistantMessages a + 1)
               == inject_Z (sumZ ds + (now - u))
                  / inject_Z (Z.of_nat (List.length ds) + 1))%Q)
    by (rewrite S, Hlen; reflexivity).
  rewrite (binary64_number_Qeq _ _ D).
  assumption.
Qed.

(** * The request handler *)

(** ** One endpoint at a time *)

Lemma ns_put_same (ns : Namespace) (name : string) (st : Storage) :
  ns_put ns name st name = st.
Proof. unfold ns_put. now rewrite String.eqb_refl. Qed.

Lemma ns_put_other (ns : Namespace) (name other : string) (st : Storage) :
  other <> name -> ns_put ns name st other = ns other.
Proof.
  intros H. unfold ns_put.
  destruct (String.eqb_spec other name); [contradiction|reflexivity].
Qed.

Lemma stub_call_eq {T : Type} (name : string) (c : M T) (ns : Namespace) :
  stub_call name c ns =
  (Returns (eval c (ns name)), ns_put ns name (exec c (ns name))).
Proof. unfold stub_call, eval, exec. now destruct (c (ns name)). Qed.

Lemma exec_getMessages (st : Storage) : exec getMessages st = st.
Proof. reflexivity. Qed.

Lemma exec_getAnalytics (st : Storage) : exec getAnalytics st = st.
Proof. reflexivity. Qed.

Ltac handler_steps :=
  unfold try_catch, chatEndpoint, clearEndpoint, analyticsEndpoint,
    exportEndpoint, hbind, await, hret;
  repeat (rewrite ?stub_call_eq; cbn [fst snd]).

Lemma endpoints_malformed (env : Env) (nowUser nowAssistant : Z)
    (request : HttpRequest) (ns : Namespace) (e : string) :
  json request = Throws e ->
  try_catch (chatEndpoint env nowUser nowAssistant request) errorResponse ns
    = (errorResponse e, ns) /\
  try_catch (clearEndpoint request) errorResponse ns = (errorResponse e, ns) /\
  try_catch (analyticsEndpoint request) errorResponse ns
    = (errorResponse e, ns) /\
  try_catch (exportEndpoint request) errorResponse ns = (errorResponse e, ns).
Proof. intros H. handler_steps. rewrite H. now repeat split. Qed.

Lemma clear_effect (request : HttpRequest) (ns : Namespace) (p : Payload) :
  json request = Returns p ->
  try_catch (clearEndpoint request) errorResponse ns =
  (mkResponse 200 jsonHeaders JsonSuccess,
   ns_put ns (p_sessionId p) (exec clearMessages (ns (p_sessionId p)))).
Proof. intros H. handler_steps. rewrite H. now handler_steps. Qed.

Lemma analytics_effect (request : HttpRequest) (ns : Namespace) (p : Payload) :
  json request = Returns p ->
  try_catch (analyticsEndpoint request) errorResponse ns =
  (mkResponse 200 jsonHeaders (JsonAnalytics (analyticsOf (ns (p_sessionId p)))),
   ns_put ns (p_sessionId p) (ns (p_sessionId p))).
Proof. intros H. handler_steps. rewrite H. now handler_steps. Qed.

Lemma export_effect (request : HttpRequest) (ns : Namespace) (p : Payload) :
  json request = Returns p ->
  try_catch (exportEndpoint request) errorResponse ns =
  (mkResponse 200
     (jsonHeaders ++
      [("Content-Disposition"%string,
        "attachment; filename=conversation.json"%string)])
     (JsonMessages (messagesOf (ns (p_sessionId p)))),
   ns_put ns (p_sessionId p) (ns (p_sessionId p))).
Proof. intros H. handler_steps. rewrite H. now handler_steps. Qed.

(** The chat endpoint, run in one piece: the user's message is appended,
    then the reply if one was obtained. *)
Lemma chat_effect (env : Env) (nowUser nowAssistant : Z)
    (request : HttpRequest) (ns : Namespace) (p : Payload) :
  json request = Returns p ->
  let name := p_sessionId p in
  let asked :=
    exec (addMessage nowUser (mkMessage user (p_message p) None)) (ns name) in
  let r :=
    try_catch (chatEndpoint env nowUser nowAssistant request)
      errorResponse ns in
  (forall other, other <> name -> snd r other = ns other) /\
  match inference env (messagesOf (ns name)) p with
  | Returns reply =>
      fst r = mkResponse 200 jsonHeaders (JsonResponse reply) /\
      snd r name =
        exec (addMessage nowAssistant (mkMessage assistant reply None)) asked
  | Throws e =>
      fst r = errorResponse e /\ snd r name = asked
  end.
Proof.
  intros H. cbv zeta. unfold inference. handler_steps. rewrite H.
  handler_steps. rewrite exec_getMessages.
  fold (messagesOf (ns (p_sessionId p))).
  destruct (truthy_string (p_image p)).
  - destruct (decode_image env _) as [bytes|e]; cbn [fst snd].
    + destruct (run_vision env bytes (p_message p)) as [d|e]; cbn [fst snd].
      * handler_steps. rewrite !ns_put_same. split; [|now split].
        intros other Ho. now rewrite !ns_put_other.
      * rewrite !ns_put_same. split; [|now split].
        intros other Ho. now rewrite !ns_put_other.
    + rewrite !ns_put_same. split; [|now split].
      intros other Ho. now rewrite !ns_put_other.
  - destruct (run_text env _) as [reply|e]; cbn [fst snd].
    + handler_steps. rewrite !ns_put_same. split; [|now split].
      intros other Ho. now rewrite !ns_put_other.
    + rewrite !ns_put_same. split; [|now split].
      intros other Ho. now rewrite !ns_put_other.
Qed.

(** ** Routing *)

(** The handler takes exactly one of its seven exits. *)
Lemma fetch_routes (env : Env) (nowUser nowAssistant : Z)
    (request : HttpRequest) (ns : Namespace) :
  let r := fetch env nowUser nowAssistant request ns in
  (method request = "OPTIONS"%string /\
   r = (mkResponse 200 corsHeaders BodyNull, ns)) \/
  (method request = "GET"%string /\ pathname request = "/"%string /\
   r = (mkResponse 200 [("Content-Type"%string, "text/html"%string)] BodyHtml,
        ns)) \/
  (method request = "POST"%string /\ pathname request = "/api/chat"%string /\
   r = try_catch (chatEndpoint env nowUser nowAssistant request)
         errorResponse ns) \/
  (method request = "POST"%string /\ pathname request = "/api/clear"%string /\
   r = try_catch (clearEndpoint request) errorResponse ns) \/
  (method request = "POST"%string /\
   pathname request = "/api/analytics"%string /\
   r = try_catch (analyticsEndpoint request) errorResponse ns) \/
  (method request = "POST"%string /\ pathname request = "/api/export"%string /\
   r = try_catch (exportEndpoint request) errorResponse ns) \/
  (method request <> "OPTIONS"%string /\
   ~ (method request = "GET"%string /\ pathname request = "/"%string) /\
   ~ (method request = "POST"%string /\ In (pathname request) apiPaths) /\
   r = (mkResponse 404 [] (BodyText "Not found"), ns)).
Proof.
  cbv zeta. unfold fetch.
  destruct (String.eqb_spec (method request) "OPTIONS") as [O|O];
    [now left|].
  destruct (String.eqb_spec (pathname request) "/") as [P0|P0];
    destruct (String.eqb_spec (method request) "GET") as [G|G];
    cbn [andb]; try (right; left; now repeat split).
  all: destruct (String.eqb_spec (method request) "POST") as [Po|Po];
    rewrite ?andb_false_r, ?andb_true_r.
  all: try (destruct (String.eqb_spec (pathname request) "/api/chat");
            [right; right; left; now repeat split|]).
  all: try (destruct (String.eqb_spec (pathname request) "/api/clear");
            [right; right; right; left; now repeat split|]).
  all: try (destruct (String.eqb_spec (pathname request) "/api/analytics");
            [right; right; right; right; left; now repeat split|]).
  all: try (destruct (String.eqb_spec (pathname request) "/api/export");
            [right; right; right; right; right; left; now repeat split|]).
  all: repeat right; repeat split; try assumption;
    try (intros [? ?]; congruence);
    try (intros [_ [?|[?|[?|[?|[]]]]]]; congruence).
Qed.

(** What an endpoint answers: its success body with status 200, or the
    error it caught with status 500. *)
Lemma endpoint_answers (env : Env) (nowUser nowAssistant : Z)
    (request : HttpRequest) (ns : Namespace) :
  ((exists reply,
       fst (try_catch (chatEndpoint env nowUser nowAssistant request)
              errorResponse ns)
       = mkResponse 200 jsonHeaders (JsonResponse reply)) \/
   (exists e,
       fst (try_catch (chatEndpoint env nowUser nowAssistant request)
              errorResponse ns) = errorResponse e)) /\
  (fst (try_catch (clearEndpoint request) errorResponse ns)
     = mkResponse 200 jsonHeaders JsonSuccess \/
   (exists e,
       fst (try_catch (clearEndpoint request) errorResponse ns)
       = errorResponse e)) /\
  ((exists a,
       fst (try_catch (analyticsEndpoint request) errorResponse ns)
       = mkResponse 200 jsonHeaders (JsonAnalytics a)) \/
   (exists e,
       fst (try_catch (analyticsEndpoint request) errorResponse ns)
       = errorResponse e)) /\
  ((exists ms,
       fst (try_catch (exportEndpoint request) errorResponse ns)
       = mkResponse 200
           (jsonHeaders ++
            [("Content-Disposition"%string,
              "attachment; filename=conversation.json"%string)])
           (JsonMessages ms)) \/
   (exists e,
       fst (try_catch (exportEndpoint request) errorResponse ns)
       = errorResponse e)).
Proof.
  destruct (json request) as [p|e] eqn:J.
  - rewrite (clear_effect _ _ _ J), (analytics_effect _ _ _ J),
      (export_effect _ _ _ J). cbn [fst].
    split; [|split; [now left|split; left; eexists; reflexivity]].
    destruct (chat_effect env nowUser nowAssistant request ns p J) as [_ C].
    destruct (inference env _ p) as [reply|e];
      [left; exists reply|right; exists e]; apply C.
  - destruct (endpoints_malformed env nowUser nowAssistant request ns e J)
      as (-> & -> & -> & ->).
    repeat split; right; exists e; reflexivity.
Qed.

(** X7: every response has status 200, 404 or 500, and it is 404 exactly
    when the request is not [OPTIONS], not [GET /] and not a [POST] to one of the
    four API paths. *)
Theorem not_found_exactly_when_unrouted (env : Env) (nowUser nowAssistant : Z)
    (request : HttpRequest) (ns : Namespace) :
  let r := fst (fetch env nowUser nowAssistant request ns) in
  (status r = 200 \/ status r = 404 \/ status r = 500) /\
  (status r = 404 <->
   method request <> "OPTIONS"%string /\
   ~ (method request = "GET"%string /\ pathname request = "/"%string) /\
   ~ (method request = "POST"%string /\ In (pathname request) apiPaths)).
Proof.
  cbv zeta.
  destruct (endpoint_answers env nowUser nowAssistant request ns)
    as (Chat & Clr & Ana & Exp).
  destruct (fetch_routes env nowUser nowAssistant request ns)
    as [[M ->]|[(M & P & ->)|[(M & P & ->)|[(M & P & ->)|[(M & P & ->)
       |[(M & P & ->)|(M & G & Po & ->)]]]]]].
  - cbn [fst status]. split; [now left|].
    split; [discriminate|]. intros (H & _). contradiction.
  - cbn [fst status]. split; [now left|].
    split; [discriminate|]. intros (_ & H & _). elim H. now split.
  - assert (In (pathname request) apiPaths) by (rewrite P; simpl; auto).
    destruct Chat as [[x ->]|[x ->]]; cbn [status errorResponse];
      (split; [auto|split; [discriminate|intros (_ & _ & H'); elim H'; auto]]).
  - assert (In (pathname request) apiPaths) by (rewrite P; simpl; auto).
    destruct Clr as [->|[x ->]]; cbn [status errorResponse];
      (split; [auto|split; [discriminate|intros (_ & _ & H'); elim H'; auto]]).
  - assert (In (pathname request) apiPaths) by (rewrite P; simpl; auto).
    destruct Ana as [[x ->]|[x ->]]; cbn [status errorResponse];
      (split; [auto|split; [discriminate|intros (_ & _ & H'); elim H'; auto]]).
  - assert (In (pathname request) apiPaths) by (rewrite P; simpl; auto).
    destruct Exp as [[x ->]|[x ->]]; cbn [status errorResponse];
      (split; [auto|split; [discriminate|intros (_ & _ & H'); elim H'; auto]]).
  - cbn [fst status]. split; [auto|]. split; [now intros _|reflexivity].
Qed.

Lemma not_found_exactly_when_unrouted_witness :
  let env := mkEnv (fun _ => Throws "bad image"%string)
                   (fun _ _ => Returns None)
                   (fun _ => Returns "hello"%string) in
  let request := mkHttpRequest "GET" "/api/chat"
                   (Returns (mkPayload "hi" "s1" None)) in
  (method request <> "OPTIONS"%string /\
   ~ (method request = "GET"%string /\ pathname request = "/"%string) /\
   ~ (method request = "POST"%string /\ In (pathname request) apiPaths)) /\
  status (fst (fetch env 1000 1500 request freshNamespace)) = 404.
Proof.
  cbv zeta.
  match goal with
  | |- ?hyp /\ status (fst (fetch ?env ?nu ?na ?rq ?ns)) = _ =>
      assert (H : hyp)
        by (repeat split; [discriminate|intros [_ E]; discriminate E
                          |intros [E _]; discriminate E]);
      split; [exact H|];
      exact (proj2 (proj2 (not_found_exactly_when_unrouted env nu na rq ns))
               H)
  end.
Defined.

(** X8: every answer of an API route and of the preflight carries the three
    CORS headers; the HTML page and the 404 answer carry none of them.  An answer
    of status 500 carries the JSON headers and a JSON error body. *)
Theorem cors_headers_on_api_answers (env : Env) (nowUser nowAssistant : Z)
    (request : HttpRequest) (ns : Namespace) :
  let r := fst (fetch env nowUser nowAssistant request ns) in
  (status r = 500 -> headers r = jsonHeaders /\ exists e, body r = JsonError e)
  /\
  (status r = 404 \/ body r = BodyHtml ->
   forall h, In h corsHeaders -> ~ In h (headers r)) /\
  (status r <> 404 -> body r <> BodyHtml -> incl corsHeaders (headers r)).
Proof.
  cbv zeta.
  assert (Hj : incl corsHeaders jsonHeaders)
    by (unfold jsonHeaders; apply incl_appl, incl_refl).
  assert (Hx : forall tl, incl corsHeaders (jsonHeaders ++ tl))
    by (intros tl; apply incl_appl, Hj).
  destruct (endpoint_answers env nowUser nowAssistant request ns)
    as (Chat & Clr & Ana & Exp).
  destruct (fetch_routes env nowUser nowAssistant request ns)
    as [[M ->]|[(M & P & ->)|[(M & P & ->)|[(M & P & ->)|[(M & P & ->)
       |[(M & P & ->)|(M & G & Po & ->)]]]]]].
  - cbn. split; [discriminate|]. split; [intros [?|?]; discriminate|].
    intros _ _. apply incl_refl.
  - cbn. split; [discriminate|]. split; [|intros _ H; now elim H].
    intros _ h [<-|[<-|[<-|[]]]] [E|[]]; discriminate.
  - destruct Chat as [[x ->]|[x ->]]; cbn [status headers body errorResponse];
      (split; [first [discriminate|intros _; split; [reflexivity|now exists x]]|]);
      (split; [intros [?|?]; discriminate|intros _ _; exact Hj]).
  - destruct Clr as [->|[x ->]]; cbn [status headers body errorResponse];
      (split; [first [discriminate|intros _; split; [reflexivity|now exists x]]|]);
      (split; [intros [?|?]; discriminate|intros _ _; exact Hj]).
  - destruct Ana as [[x ->]|[x ->]]; cbn [status headers body errorResponse];
      (split; [first [discriminate|intros _; split; [reflexivity|now exists x]]|]);
      (split; [intros [?|?]; discriminate|intros _ _; exact Hj || apply Hx]).
  - destruct Exp as [[x ->]|[x ->]]; cbn [status headers body errorResponse];
      (split; [first [discriminate|intros _; split; [reflexivity|now exists x]]|]);
      (split; [intros [?|?]; discriminate|intros _ _; exact Hj || apply Hx]).
  - cbn. split; [discriminate|]. split; [intros _ h _ []|].
    intros H. now elim H.
Qed.

Lemma cors_headers_on_api_answers_witness :
  let env := mkEnv (fun _ => Throws "bad image"%string)
                   (fun _ _ => Returns None)
                   (fun _ => Throws "model unavailable"%string) in
  let request := mkHttpRequest "POST" "/api/chat"
                   (Returns (mkPayload "hi" "s1" None)) in
  let r := fst (fetch env 1000 1500 request freshNamespace) in
  status r = 500 /\
  headers r = jsonHeaders /\ exists e, body r = JsonError e.
Proof.
  cbv zeta. split; [reflexivity|].
  match goal with
  | |- context [fetch ?env ?nu ?na ?rq ?ns] =>
      exact (proj1 (cors_headers_on_api_answers env nu na rq ns) eq_refl)
  end.
Defined.

(** ** Which object a request touches *)

(** X9: a request changes the storage of an object only if it is a [POST] to
    [/api/chat] or [/api/clear] whose body parses and names that object:
    [OPTIONS], the page, the analytics and export endpoints, unrouted
    requests and requests with a malformed body change nothing, and no
    request changes a session other than its own. *)
Theorem fetch_writes_only_named_session (env : Env) (nowUser nowAssistant : Z)
    (request : HttpRequest) (ns : Namespace) (name : string) :
  snd (fetch env nowUser nowAssistant request ns) name <> ns name ->
  method request = "POST"%string /\
  (pathname request = "/api/chat"%string \/
   pathname request = "/api/clear"%string) /\
  exists p, json request = Returns p /\ p_sessionId p = name.
Proof.
  intros Hd.
  assert (Same : forall sid : string,
             ns_put ns sid (ns sid) name = ns name).
  { intros sid. unfold ns_put.
    destruct (String.eqb_spec name sid); congruence. }
  destruct (fetch_routes env nowUser nowAssistant request ns)
    as [[M E]|[(M & P & E)|[(M & P & E)|[(M & P & E)|[(M & P & E)
       |[(M & P & E)|(M & G & Po & E)]]]]]];
    cbv zeta in E; rewrite E in Hd; clear E; cbn [snd] in Hd;
    try (now elim Hd).
  - destruct (json request) as [p|e] eqn:J.
    + destruct (String.eqb_spec name (p_sessionId p)) as [->|N].
      * repeat split; auto. now exists p.
      * destruct (chat_effect env nowUser nowAssistant request ns p J)
          as [O _].
        elim Hd. now apply O.
    + rewrite (proj1 (endpoints_malformed env nowUser nowAssistant
                        request ns e J)) in Hd. now elim Hd.
  - destruct (json request) as [p|e] eqn:J.
    + rewrite (clear_effect _ _ _ J) in Hd. cbn [snd] in Hd.
      destruct (String.eqb_spec name (p_sessionId p)) as [->|N].
      * repeat split; auto. now exists p.
      * elim Hd. now apply ns_put_other.
    + destruct (endpoints_malformed env nowUser nowAssistant request ns e J)
        as (_ & E & _). rewrite E in Hd. now elim Hd.
  - destruct (json request) as [p|e] eqn:J.
    + rewrite (analytics_effect _ _ _ J) in Hd. cbn [snd] in Hd.
      elim Hd. now apply Same.
    + destruct (endpoints_malformed env nowUser nowAssistant request ns e J)
        as (_ & _ & E & _). rewrite E in Hd. now elim Hd.
  - destruct (json request) as [p|e] eqn:J.
    + rewrite (export_effect _ _ _ J) in Hd. cbn [snd] in Hd.
      elim Hd. now apply Same.
    + destruct (endpoints_malformed env nowUser nowAssistant request ns e J)
        as (_ & _ & _ & E). rewrite E in Hd. now elim Hd.
Qed.

Lemma fetch_writes_only_named_session_witness :
  let env := mkEnv (fun _ => Throws "bad image"%string)
                   (fun _ _ => Returns None)
                   (fun _ => Returns "hello"%string) in
  let request := mkHttpRequest "POST" "/api/chat"
                   (Returns (mkPayload "hi" "s1" None)) in
  snd (fetch env 1000 1500 request freshNamespace) "s1"%string
    <> freshNamespace "s1"%string /\
  method request = "POST"%string /\
  (pathname request = "/api/chat"%string \/
   pathname request = "/api/clear"%string) /\
  exists p, json request = Returns p /\ p_sessionId p = "s1"%string.
Proof.
  cbv zeta.
  match goal with
  | |- ?hyp /\ _ =>
      assert (H : hyp) by (vm_compute; discriminate);
      split; [exact H|];
      exact (fetch_writes_only_named_session _ _ _ _ _ _ H)
  end.
Defined.

(** ** Errors *)

(** X10: a [POST] to any of the four API paths whose body does not parse is
    answered with status 500 and the parser's error message, and changes no
    stored state. *)
Theorem malformed_body_is_500 (env : Env) (nowUser nowAssistant : Z)
    (request : HttpRequest) (ns : Namespace) (e : string) :
  method request = "POST"%string ->
  In (pathname request) apiPaths ->
  json request = Throws e ->
  fetch env nowUser nowAssistant request ns =
  (mkResponse 500 jsonHeaders (JsonError e), ns).
Proof.
  intros M P J.
  destruct (endpoints_malformed env nowUser nowAssistant request ns e J)
    as (E1 & E2 & E3 & E4).
  destruct (fetch_routes env nowUser nowAssistant request ns)
    as [[M' _]|[(M' & _)|[(_ & _ & R)|[(_ & _ & R)|[(_ & _ & R)
       |[(_ & _ & R)|(_ & _ & Po & _)]]]]]];
    try congruence; try (cbv zeta in R; rewrite R; assumption).
  elim Po. now split.
Qed.

Lemma malformed_body_is_500_witness :
  let env := mkEnv (fun _ => Throws "bad image"%string)
                   (fun _ _ => Returns None)
                   (fun _ => Returns "hello"%string) in
  let request := mkHttpRequest "POST" "/api/analytics"
                   (Throws "Unexpected end of JSON input") in
  method request = "POST"%string /\
  In (pathname request) apiPaths /\
  fetch env 1000 1500 request freshNamespace =
  (mkResponse 500 jsonHeaders (JsonError "Unexpected end of JSON input"),
   freshNamespace).
Proof.
  cbv zeta. split; [reflexivity|].
  split; [simpl; auto|].
  apply malformed_body_is_500; [reflexivity|simpl; auto|reflexivity].
Defined.

(** ** The chat endpoint *)

Lemma chat_stores_what_it_answers_aux (env : Env) (nowUser nowAssistant : Z)
    (request : HttpRequest) (ns : Namespace) (p : Payload) :
  method request = "POST"%string ->
  pathname request = "/api/chat"%string ->
  json request = Returns p ->
  let r := fetch env nowUser nowAssistant request ns in
  let before := messagesOf (ns (p_sessionId p)) in
  let after := messagesOf (snd r (p_sessionId p)) in
  let question := mkMessage user (p_message p) (Some nowUser) in
  (exists reply,
      fst r = mkResponse 200 jsonHeaders (JsonResponse reply) /\
      after = before ++
              [question; mkMessage assistant reply (Some nowAssistant)]) \/
  (exists e,
      fst r = mkResponse 500 jsonHeaders (JsonError e) /\
      after = before ++ [question]).
Proof.
  intros M P J. cbv zeta.
  destruct (fetch_routes env nowUser nowAssistant request ns)
    as [[M' _]|[(M' & _)|[(_ & _ & ->)|[(_ & P' & _)|[(_ & P' & _)
       |[(_ & P' & _)|(_ & _ & Po & _)]]]]]];
    try congruence.
  2: { elim Po. split; [assumption|]. rewrite P. simpl. auto. }
  destruct (chat_effect env nowUser nowAssistant request ns p J) as [_ C].
  destruct (inference env _ p) as [reply|e]; destruct C as [-> ->].
  - left. exists reply. split; [reflexivity|].
    rewrite !messagesOf_addMessage, <- app_assoc. reflexivity.
  - right. exists e. split; [reflexivity|].
    now rewrite messagesOf_addMessage.
Qed.

(** X11: when no other request is served while a chat request is being
    handled (the request runs to its end in one piece, as [fetch] models
    it), a chat request with a well-formed body either is answered 200 with
    a reply, and then the session's ledger has grown by the user's message
    followed by an assistant message whose content is exactly that reply; or
    it is answered 500, and then the ledger has grown by the user's message
    alone: a failed inference does not take the user's turn back.  Both
    messages carry the clock readings of their appends. *)
Theorem chat_stores_what_it_answers (env : Env) (nowUser nowAssistant : Z)
    (request : HttpRequest) (ns : Namespace) (p : Payload) :
  method request = "POST"%string ->
  pathname request = "/api/chat"%string ->
  json request = Returns p ->
  let r := fetch env nowUser nowAssistant request ns in
  let before := messagesOf (ns (p_sessionId p)) in
  let after := messagesOf (snd r (p_sessionId p)) in
  let question := mkMessage user (p_message p) (Some nowUser) in
  (exists reply,
      fst r = mkResponse 200 jsonHeaders (JsonResponse reply) /\
      after = before ++
              [question; mkMessage assistant reply (Some nowAssistant)]) \/
  (exists e,
      fst r = mkResponse 500 jsonHeaders (JsonError e) /\
      after = before ++ [question]).
Proof. exact (chat_stores_what_it_answers_aux env nowUser nowAssistant request ns p). Qed.

Lemma chat_stores_what_it_answers_witness :
  let env := mkEnv (fun _ => Throws "bad image"%string)
                   (fun _ _ => Returns None)
                   (fun _ => Throws "model unavailable"%string) in
  let p := mkPayload "hi" "s1" None in
  let request := mkHttpRequest "POST" "/api/chat" (Returns p) in
  let r := fetch env 1000 1500 request freshNamespace in
  let after := messagesOf (snd r (p_sessionId p)) in
  method request = "POST"%string /\
  pathname request = "/api/chat"%string /\
  json request = Returns p /\
  ((exists reply,
       fst r = mkResponse 200 jsonHeaders (JsonResponse reply) /\
       after = [] ++ [mkMessage user "hi" (Some 1000);
                      mkMessage assistant reply (Some 1500)]) \/
   (exists e,
       fst r = mkResponse 500 jsonHeaders (JsonError e) /\
       after = [] ++ [mkMessage user "hi" (Some 1000)])).
Proof.
  cbv zeta. split; [reflexivity|]. split; [reflexivity|].
  split; [reflexivity|].
  exact (chat_stores_what_it_answers _ 1000 1500
           (mkHttpRequest "POST" "/api/chat"
              (Returns (mkPayload "hi" "s1" None)))
           freshNamespace (mkPayload "hi" "s1" None)
           eq_refl eq_refl eq_refl).
Defined.

(** X12: without an image, the answer is decided by the text model on one
    prompt: the system prompt, followed by the ledger as it was stored
    before this request, followed by the user's new message.  What the model
    returns on it is the reply sent with status 200, and the message of an
    error it throws on it is sent with status 500. *)
Theorem text_reply_from_prompt (env : Env) (nowUser nowAssistant : Z)
    (request : HttpRequest) (ns : Namespace) (p : Payload) :
  method request = "POST"%string ->
  pathname request = "/api/chat"%string ->
  json request = Returns p ->
  truthy_string (p_image p) = false ->
  let prompt :=
    mkMessage system "You are a helpful chatbot." None
    :: messagesOf (ns (p_sessionId p))
       ++ [mkMessage user (p_message p) None] in
  match run_text env prompt with
  | Returns reply =>
      fst (fetch env nowUser nowAssistant request ns) =
      mkResponse 200 jsonHeaders (JsonResponse reply)
  | Throws e =>
      fst (fetch env nowUser nowAssistant request ns) =
      mkResponse 500 jsonHeaders (JsonError e)
  end.
Proof.
  intros M P J I. cbv zeta.
  destruct (fetch_routes env nowUser nowAssistant request ns)
    as [[M' _]|[(M' & _)|[(_ & _ & ->)|[(_ & P' & _)|[(_ & P' & _)
       |[(_ & P' & _)|(_ & _ & Po & _)]]]]]];
    try congruence.
  2: { elim Po. split; [assumption|]. rewrite P. simpl. auto. }
  destruct (chat_effect env nowUser nowAssistant request ns p J) as [_ C].
  unfold inference in C. rewrite I in C.
  fold systemPrompt.
  destruct (run_text env _) as [reply|e]; apply C.
Qed.

Lemma text_reply_from_prompt_witness :
  let env := mkEnv (fun _ => Throws "bad image"%string)
                   (fun _ _ => Returns None)
                   (fun prompt =>
                      match prompt with
                      | [_; _] => Returns "first answer"%string
                      | _ => Returns "another answer"%string
                      end) in
  let p := mkPayload "hi" "s1" None in
  let request := mkHttpRequest "POST" "/api/chat" (Returns p) in
  method request = "POST"%string /\
  pathname request = "/api/chat"%string /\
  json request = Returns p /\
  truthy_string (p_image p) = false /\
  fst (fetch env 1000 1500 request freshNamespace) =
  mkResponse 200 jsonHeaders (JsonResponse "first answer").
Proof.
  cbv zeta. repeat (split; [reflexivity|]).
  match goal with
  | |- fst (fetch ?env ?nu ?na ?rq ?ns) = _ =>
      exact (text_reply_from_prompt env nu na rq ns
               (mkPayload "hi" "s1" None) eq_refl eq_refl eq_refl eq_refl)
  end.
Defined.

(** X13: with a non-empty image, the answer is decided by decoding the image
    and by the vision model on the decoded bytes and the user's message.  An
    error thrown by either is sent with status 500; otherwise the reply sent
    is the description returned, or the fixed sentence "I couldn't analyze
    the image." when the description is absent or empty, so that the reply
    of the vision path is never empty. *)
Theorem vision_reply_or_default (env : Env) (nowUser nowAssistant : Z)
    (request : HttpRequest) (ns : Namespace) (p : Payload) (image : string) :
  method request = "POST"%string ->
  pathname request = "/api/chat"%string ->
  json request = Returns p ->
  p_image p = Some image -> image <> ""%string ->
  let answer := fst (fetch env nowUser nowAssistant request ns) in
  match decode_image env image with
  | Throws e => answer = mkResponse 500 jsonHeaders (JsonError e)
  | Returns bytes =>
      match run_vision env bytes (p_message p) with
      | Throws e => answer = mkResponse 500 jsonHeaders (JsonError e)
      | Returns description =>
          exists reply,
            answer = mkResponse 200 jsonHeaders (JsonResponse reply) /\
            reply <> ""%string /\
            match description with
            | Some d => if String.eqb d "" then
                          reply = "I couldn't analyze the image."%string
                        else reply = d
            | None => reply = "I couldn't analyze the image."%string
            end
      end
  end.
Proof.
  intros M P J I N. cbv zeta.
  destruct (fetch_routes env nowUser nowAssistant request ns)
    as [[M' _]|[(M' & _)|[(_ & _ & ->)|[(_ & P' & _)|[(_ & P' & _)
       |[(_ & P' & _)|(_ & _ & Po & _)]]]]]];
    try congruence.
  2: { elim Po. split; [assumption|]. rewrite P. simpl. auto. }
  destruct (chat_effect env nowUser nowAssistant request ns p J) as [_ C].
  unfold inference in C. rewrite I in C. cbn [truthy_string] in C.
  destruct (String.eqb_spec image "") as [|_]; [contradiction|].
  cbn [negb] in C.
  destruct (decode_image env image) as [bytes|e]; [|apply C].
  destruct (run_vision env bytes (p_message p)) as [d|e]; [|apply C].
  exists (descriptionOrDefault d). split; [apply C|].
  unfold descriptionOrDefault, truthy_string.
  destruct d as [d|]; [|split; [discriminate|reflexivity]].
  destruct (String.eqb_spec d ""); cbn [negb];
    split; try reflexivity; try assumption; discriminate.
Qed.

Lemma vision_reply_or_default_witness :
  let env := mkEnv (fun _ => Returns [137; 80; 78; 71])
                   (fun _ _ => Returns (Some ""%string))
                   (fun _ => Throws "unused"%string) in
  let p := mkPayload "what is this?" "s1"
             (Some "data:image/png;base64,iVBORw=="%string) in
  let request := mkHttpRequest "POST" "/api/chat" (Returns p) in
  method request = "POST"%string /\
  pathname request = "/api/chat"%string /\
  json request = Returns p /\
  "data:image/png;base64,iVBORw=="%string <> ""%string /\
  exists reply,
    fst (fetch env 1000 1500 request freshNamespace) =
      mkResponse 200 jsonHeaders (JsonResponse reply) /\
    reply <> ""%string /\
    reply = "I couldn't analyze the image."%string.
Proof.
  cbv zeta. repeat (split; [reflexivity|]).
  assert (N : "data:image/png;base64,iVBORw=="%string <> ""%string)
    by discriminate.
  split; [exact N|].
  exact (vision_reply_or_default
           (mkEnv (fun _ => Returns [137; 80; 78; 71])
                  (fun _ _ => Returns (Some ""%string))
                  (fun _ => Throws "unused"%string))
           1000 1500
           (mkHttpRequest "POST" "/api/chat"
              (Returns (mkPayload "what is this?" "s1"
                          (Some "data:image/png;base64,iVBORw=="%string))))
           freshNamespace _ _ eq_refl eq_refl eq_refl eq_refl N).
Defined.

(** ** Requests in sequence *)



(** X15: when requests are handled one after the other, what a chat request
    was answered is what an export shows: after a chat request answered with
    a reply, an export request for the same session handled next returns the
    ledger as it was before the chat request, followed by the user's message
    and by an assistant message holding that reply. *)
Theorem export_shows_the_exchange (env env' : Env) (n1 n2 n3 n4 : Z)
    (ns : Namespace) (p p' : Payload) (reply : string) :
  p_sessionId p' = p_sessionId p ->
  let chat :=
    fetch env n1 n2 (mkHttpRequest "POST" "/api/chat" (Returns p)) ns in
  fst chat = mkResponse 200 jsonHeaders (JsonResponse reply) ->
  body (fst (fetch env' n3 n4
               (mkHttpRequest "POST" "/api/export" (Returns p')) (snd chat)))
  = JsonMessages
      (messagesOf (ns (p_sessionId p)) ++
       [mkMessage user (p_message p) (Some n1);
        mkMessage assistant reply (Some n2)]).
Proof.
  intros S. cbv zeta. intros R.
  destruct (chat_stores_what_it_answers_aux env n1 n2
              (mkHttpRequest "POST" "/api/chat" (Returns p)) ns p
              eq_refl eq_refl eq_refl)
    as [(reply' & R' & L)|(e & R' & _)]; [|congruence].
  assert (reply' = reply) as -> by congruence.
  match goal with
  | |- context [fetch env' n3 n4 ?rq ?c] =>
      change (fetch env' n3 n4 rq c)
        with (try_catch (exportEndpoint rq) errorResponse c);
      rewrite (export_effect rq c p' eq_refl)
  end.
  cbn [fst body]. now rewrite S, L.
Qed.

Lemma export_shows_the_exchange_witness :
  let env := mkEnv (fun _ => Throws "bad image"%string)
                   (fun _ _ => Returns None)
                   (fun _ => Returns "hello"%string) in
  let p := mkPayload "hi" "s1" None in
  let chat :=
    fetch env 1000 1500 (mkHttpRequest "POST" "/api/chat" (Returns p))
      freshNamespace in
  p_sessionId p = p_sessionId p /\
  fst chat = mkResponse 200 jsonHeaders (JsonResponse "hello") /\
  body (fst (fetch env 2000 2000
               (mkHttpRequest "POST" "/api/export" (Returns p)) (snd chat)))
  = JsonMessages [mkMessage user "hi" (Some 1000);
                  mkMessage assistant "hello" (Some 1500)].
Proof.
  cbv zeta. split; [reflexivity|]. split; [reflexivity|].
  match goal with
  | |- context [fetch ?env 1000 1500 _ ?ns] =>
      exact (export_shows_the_exchange env env 1000 1500 2000 2000 ns
               (mkPayload "hi" "s1" None) (mkPayload "hi" "s1" None)
               "hello" eq_refl eq_refl)
  end.
Defined.

(** ** Sessions driven through the handler *)

Lemma serve_snoc (evs : list Event) (ev : Event) (ns : Namespace) :
  serve (evs ++ [ev]) ns = snd (handle (serve evs ns) ev).
Proof. unfold serve. now rewrite fold_left_app. Qed.

Lemma run_app (r1 r2 : list Request) (st : Storage) :
  run (r1 ++ r2) st = run r2 (run r1 st).
Proof. unfold run. apply fold_left_app. Qed.

(** Handling one event makes, on each object, one of the four sequences of
    calls of [handler_calls]. *)
Lemma handle_calls (ns : Namespace) (ev : Event) (name : string) :
  exists rqs,
    handler_calls ev rqs /\ snd (handle ns ev) name = run rqs (ns name).
Proof.
  unfold handle.
  assert (Same : forall sid : string,
             ns_put ns sid (ns sid) name = ns name).
  { intros sid. unfold ns_put.
    destruct (String.eqb_spec name sid); congruence. }
  destruct (fetch_routes (ev_env ev) (ev_nowUser ev) (ev_nowAssistant ev)
              (ev_request ev) ns)
    as [[M E]|[(M & P & E)|[(M & P & E)|[(M & P & E)|[(M & P & E)
       |[(M & P & E)|(M & G & Po & E)]]]]]];
    cbv zeta in E; rewrite E; clear E; cbn [snd];
    try (exists []; split; [constructor|reflexivity]).
  - destruct (json (ev_request ev)) as [p|e] eqn:J.
    + destruct (chat_effect (ev_env ev) (ev_nowUser ev) (ev_nowAssistant ev)
                  (ev_request ev) ns p J) as [O C].
      destruct (String.eqb_spec name (p_sessionId p)) as [->|N].
      * destruct (inference _ _ p) as [reply|e]; destruct C as [_ ->].
        -- eexists. split; [apply (calls_exchange ev (p_message p) reply)|].
           reflexivity.
        -- eexists. split; [apply (calls_question ev (p_message p))|].
           reflexivity.
      * exists []. split; [constructor|]. now apply O.
    + rewrite (proj1 (endpoints_malformed _ _ _ _ ns e J)).
      exists []. split; [constructor|reflexivity].
  - destruct (json (ev_request ev)) as [p|e] eqn:J.
    + rewrite (clear_effect _ _ _ J). cbn [snd].
      destruct (String.eqb_spec name (p_sessionId p)) as [->|N].
      * exists [Clear]. split; [constructor|]. now rewrite ns_put_same.
      * exists []. split; [constructor|]. now apply ns_put_other.
    + destruct (endpoints_malformed (ev_env ev) (ev_nowUser ev)
                  (ev_nowAssistant ev) _ ns e J) as (_ & -> & _).
      exists []. split; [constructor|reflexivity].
  - destruct (json (ev_request ev)) as [p|e] eqn:J.
    + rewrite (analytics_effect _ _ _ J). cbn [snd].
      exists []. split; [constructor|]. apply Same.
    + destruct (endpoints_malformed (ev_env ev) (ev_nowUser ev)
                  (ev_nowAssistant ev) _ ns e J) as (_ & _ & -> & _).
      exists []. split; [constructor|reflexivity].
  - destruct (json (ev_request ev)) as [p|e] eqn:J.
    + rewrite (export_effect _ _ _ J). cbn [snd].
      exists []. split; [constructor|]. apply Same.
    + destruct (endpoints_malformed (ev_env ev) (ev_nowUser ev)
                  (ev_nowAssistant ev) _ ns e J) as (_ & _ & _ & ->).
      exists []. split; [constructor|reflexivity].
Qed.

Lemma dialogue_continues (b : bool) (rs tl : list Role) :
  dialogue_from b rs = true ->
  dialogue_from true tl = true ->
  dialogue_from b (rs ++ user :: tl) = true.
Proof.
  revert b. induction rs as [|r rs IH]; intros b H T; [exact T|].
  destruct r; simpl in *.
  - now apply IH.
  - apply andb_prop in H as [-> H]. simpl. now apply IH.
  - discriminate.
Qed.

(** Every object reached through the handler is in a state that a sequence
    of calls leads to from the empty storage, and the appends since the last
    clear form a dialogue. *)
Lemma serve_reachable (evs : list Event) (name : string) :
  exists rqs,
    serve evs freshNamespace name = run rqs emptyStorage /\
    dialogue (roles_of (since_clear rqs)) = true /\
    (events_clock_positive evs = true -> clock_positive rqs = true).
Proof.
  induction evs as [|ev evs (rqs & Hrun & Hd & Hc)] using rev_ind.
  - exists []. now repeat split.
  - rewrite serve_snoc.
    destruct (handle_calls (serve evs freshNamespace) ev name)
      as (calls & Hcalls & ->).
    exists (rqs ++ calls). rewrite run_app, <- Hrun.
    split; [reflexivity|].
    assert (Hpos : events_clock_positive (evs ++ [ev]) = true ->
                   clock_positive rqs = true /\
                   0 < ev_nowUser ev /\ 0 < ev_nowAssistant ev).
    { unfold events_clock_positive. rewrite forallb_app. simpl.
      intros H. apply andb_prop in H as [H1 H2].
      rewrite andb_true_r in H2. apply andb_prop in H2 as [H2 H3].
      apply Z.ltb_lt in H2, H3. auto. }
    unfold clock_positive in *. unfold dialogue, roles_of in *.
    destruct Hcalls as [| |message|message reply].
    + rewrite app_nil_r. split; [assumption|]. intros H. now apply Hpos.
    + rewrite since_clear_snoc_clear, clock_readings_app, app_nil_r.
      split; [reflexivity|]. intros H. now apply Hpos.
    + rewrite since_clear_snoc_append, map_app, clock_readings_app,
        forallb_app.
      split; [now apply dialogue_continues|].
      intros H. destruct (Hpos H) as (-> & H1 & _). simpl.
      apply Z.ltb_lt in H1. now rewrite H1.
    + change (rqs ++ [Append (ev_nowUser ev) (mkMessage user message None);
                      Append (ev_nowAssistant ev)
                        (mkMessage assistant reply None)])
        with (rqs ++ [Append (ev_nowUser ev) (mkMessage user message None)]
                  ++ [Append (ev_nowAssistant ev)
                        (mkMessage assistant reply None)]).
      rewrite app_assoc, !since_clear_snoc_append, <- app_assoc, map_app.
      rewrite <- app_assoc, clock_readings_app, forallb_app.
      split; [now apply dialogue_continues|].
      intros H. destruct (Hpos H) as (-> & H1 & H2). simpl.
      apply Z.ltb_lt in H1, H2. now rewrite H1, H2.
Qed.

Lemma dialogue_no_system (b : bool) (l : list (Z * Message)) :
  dialogue_from b (roles_of l) = true -> count_role system l = 0.
Proof.
  revert b. induction l as [|[t [r c ts]] l IH]; intros b H; [reflexivity|].
  rewrite count_role_cons. unfold roles_of in *.
  destruct r; simpl in H; cbn [has_role snd role Role_eqb].
  - now rewrite (IH true).
  - apply andb_prop in H as [_ H]. now rewrite (IH false).
  - discriminate.
Qed.


Lemma roles_of_stamped (l : list (Z * Message)) :
  map role (map stamped l) = roles_of l.
Proof. unfold roles_of. now rewrite map_map. Qed.


(** X16: when requests are handled one after the other from a fresh namespace,
    then in every session, whatever the requests, their bodies and the
    outcomes of the model calls, the stored ledger is a dialogue: it holds
    no system message and every assistant message comes right after a user
    message; and [totalMessages = userMessages + assistantMessages]. *)
Theorem handler_sessions_are_dialogues (evs : list Event) (name : string) :
  let st := serve evs freshNamespace name in
  dialogue (map role (messagesOf st)) = true /\
  totalMessages (analyticsOf st) =
    userMessages (analyticsOf st) + assistantMessages (analyticsOf st).
Proof.
  cbv zeta. destruct (serve_reachable evs name) as (rqs & -> & Hd & _).
  destruct (run_counts_track rqs) as (-> & -> & -> & ->).
  rewrite roles_of_stamped. split; [exact Hd|].
  rewrite count_role_total, (dialogue_no_system false _ Hd). lia.
Qed.



